(** * running-wrapped: the activity download and merge scripts

    A shallow embedding of [scripts/process_activities.py] (the Merger) and
    [scripts/download_activities.py] (the Extractor), and the properties of
    the repository's specification stated over it.

    Python values that come out of [json.load] are the inductive [json];
    a [dict] is an association list in insertion order, which is also the
    order [json.dump] writes.  The scripts print, read and write files and
    raise exceptions: they run in the monad [M], which threads the files,
    collects the printed lines and stops at the first uncaught exception. *)

From Stdlib Require Import ZArith Floats.SpecFloat.
From stdpp Require Import base strings pretty list gmap.

Set Warnings "-register-all".
Local Open Scope string_scope.
Local Open Scope list_scope.
Local Open Scope Z_scope.

(** ** Decoded JSON values, as Python objects *)

Inductive json : Type :=
| JNull                                   (* None *)
| JBool (b : bool)                        (* True, False *)
| JInt (n : Z)                            (* int *)
| JFloat (x : spec_float)                 (* float: binary64, with inf and nan *)
| JStr (s : string)                       (* str *)
| JList (items : list json)               (* list *)
| JDict (items : list (string * json)).   (* dict, in insertion order *)

(** Exceptions the two scripts meet.  [SystemExit] derives from
    [BaseException] only; every other one derives from [Exception]. *)
Inductive exn : Type :=
| SystemExit (code : Z)
| HTTPError (code : Z) (reason : string)
| URLError (reason : string)
| FileNotFoundError
| JSONDecodeError (msg : string)
| AttributeError
| TypeError.

Definition is_Exception (e : exn) : bool :=
  match e with
  | SystemExit _ => false
  | _ => true
  end.

Inductive outcome (A : Type) : Type :=
| Return (a : A)
| Raise (e : exn).
Arguments Return {A} a.
Arguments Raise {A} e.

(** What [open] followed by [json.load] (or [json.loads] on a body) gives
    on a text. *)
Inductive load_result : Type :=
| Loaded (v : json)
| DecodeError (msg : string).

(** ** Python operations on decoded values *)

(** [bool(v)] *)
Definition truthy (v : json) : bool :=
  match v with
  | JNull => false
  | JBool b => b
  | JInt n => negb (n =? 0)
  | JFloat (S754_zero _) => false
  | JFloat _ => true
  | JStr s => negb (String.eqb s "")
  | JList items => match items with [] => false | _ => true end
  | JDict items => match items with [] => false | _ => true end
  end.

(** [v == s] for a string literal [s] *)
Definition eq_str (v : json) (s : string) : bool :=
  match v with
  | JStr s' => String.eqb s' s
  | _ => false
  end.

(** [d.get(key, default)] on the items of a dict *)
Fixpoint dict_get (items : list (string * json)) (key : string) (default : json) : json :=
  match items with
  | [] => default
  | (k, v) :: rest => if String.eqb k key then v else dict_get rest key default
  end.

(** [key in d] *)
Definition dict_has (items : list (string * json)) (key : string) : bool :=
  existsb (fun kv => String.eqb (fst kv) key) items.

(** [d[key] = v]: replaces the value of an existing key in place, appends a
    new key at the end. *)
Fixpoint dict_set (items : list (string * json)) (key : string) (v : json)
  : list (string * json) :=
  match items with
  | [] => [(key, v)]
  | (k, v') :: rest =>
      if String.eqb k key then (k, v) :: rest else (k, v') :: dict_set rest key v
  end.

(** [v.get(key, default)]: only a dict has the method. *)
Definition get (v : json) (key : string) (default : json) : outcome json :=
  match v with
  | JDict items => Return (dict_get items key default)
  | _ => Raise AttributeError
  end.

(** [len(v)].  A str is held as its UTF-8 bytes, so on text outside ASCII
    [len] and the characters of [iter] count bytes where Python counts code
    points; the scripts only take them of the activities collection. *)
Definition len (v : json) : outcome nat :=
  match v with
  | JList items => Return (length items)
  | JDict items => Return (length items)
  | JStr s => Return (String.length s)
  | _ => Raise TypeError
  end.

(** The elements [for x in v] visits: the items of a list, the keys of a
    dict, the characters of a str. *)
Definition iter (v : json) : outcome (list json) :=
  match v with
  | JList items => Return items
  | JDict items => Return (map (fun kv => JStr (fst kv)) items)
  | JStr s => Return (map (fun c => JStr (String c "")) (String.list_ascii_of_string s))
  | _ => Raise TypeError
  end.

(** [str(v)], also what an f-string puts for [{v}]; [repr] is Python's own,
    used on a float, a list or a dict. *)
Definition str (repr : json -> string) (v : json) : string :=
  match v with
  | JNull => "None"
  | JBool true => "True"
  | JBool false => "False"
  | JInt n => pretty n
  | JStr s => s
  | _ => repr v
  end.

(** ** Files, printed lines and the monad of the scripts *)

(** The data directory: [activities.json], the files of [streams/] by file
    name, and [processed_activities.json].  A file is its text. *)
Record files : Type := Files {
  activities_json : option string;
  streams : gmap string string;
  processed_activities_json : option string;
}.

(** The name of an activity's file under [streams/]: [f"{activity_id}.json"]. *)
Definition stream_file (activity_id : string) : string := activity_id +:+ ".json".

Section Monad.
Context {line : Type}.

Definition M (A : Type) : Type := files -> outcome A * files * list line.

Definition ret {A} (a : A) : M A := fun fs => (Return a, fs, []).

Definition raise {A} (e : exn) : M A := fun fs => (Raise e, fs, []).

Definition bind {A B} (m : M A) (k : A -> M B) : M B :=
  fun fs =>
    match m fs with
    | (Return a, fs', out) =>
        let '(r, fs'', out') := k a fs' in (r, fs'', out ++ out')
    | (Raise e, fs', out) => (Raise e, fs', out)
    end.

Definition print (l : line) : M unit := fun fs => (Return tt, fs, [l]).

Definition lift {A} (o : outcome A) : M A := fun fs => (o, fs, []).

Definition read {A} (field : files -> A) : M A := fun fs => (Return (field fs), fs, []).

Definition write (update : files -> files) : M unit :=
  fun fs => (Return tt, update fs, []).

(** [try: m  except <class> as e: handler e]; [catches] says which
    exceptions the clause names. *)
Definition try_except {A} (m : M A) (catches : exn -> bool) (handler : exn -> M A) : M A :=
  fun fs =>
    match m fs with
    | (Raise e, fs', out) =>
        if catches e
        then let '(r, fs'', out') := handler e fs' in (r, fs'', out ++ out')
        else (Raise e, fs', out)
    | r => r
    end.
End Monad.
Arguments M : clear implicits.

Declare Scope py_scope.
Delimit Scope py_scope with py.
Notation "x <- c1 ;; c2" := (bind c1 (fun x => c2))
  (at level 100, c1 at next level, right associativity) : py_scope.
Notation "c1 ;; c2" := (bind c1 (fun _ => c2))
  (at level 100, right associativity) : py_scope.
Local Open Scope py_scope.

(** ** scripts/process_activities.py *)

Module ProcessActivities.

(** The lines the script prints, by their format string. *)
Inductive line : Type :=
| Loading_activities                                  (* "Loading activities..." *)
| Found (n : nat)                                     (* "Found {len(activities)} activities" *)
| Warning_missing_id (activity : json)                (* "Warning: Activity missing ID, skipping: {activity}" *)
| Warning_stream_not_found (activity_id file : string)
    (* "Warning: Stream file not found for activity {activity_id}: {stream_file}" *)
| Warning_stream_parse (activity_id e : string)
    (* "Warning: Failed to parse stream file for activity {activity_id}: {e}" *)
| Processed (n : nat)                                 (* "Processed {n} run activities" *)
| Writing_output                                      (* "Writing output to {output_file}..." *)
| Done.                                               (* "Done!" *)

(** One pass of the loop over a list-form stream payload (lines 85-91):
    a dict whose ['type'] is one of the two channel names assigns that
    channel; anything else leaves both as they are. *)
Definition scan_stream (channels : json * json) (stream : json) : json * json :=
  let '(heartrate, velocity_smooth) := channels in
  match stream with
  | JDict items =>
      let stream_type := dict_get items "type" JNull in
      if eq_str stream_type "heartrate" then
        (dict_get items "data" (JList []), velocity_smooth)
      else if eq_str stream_type "velocity_smooth" then
        (heartrate, dict_get items "data" (JList []))
      else channels
  | _ => channels
  end.

(** Lines 79-101: the pair (heartrate, velocity_smooth) for a loaded
    stream payload. *)
Definition extract_channels (stream_data : json) : json * json :=
  if truthy stream_data then
    match stream_data with
    | JList streams => fold_left scan_stream streams (JList [], JList [])
    | JDict items =>
        (dict_get items "heartrate" (JList []),
         dict_get items "velocity_smooth" (JList []))
    | _ => (JList [], JList [])
    end
  else (JList [], JList []).

(** Lines 69-74 and 97-101: the record, its keys in the order they are
    created. *)
Definition processed_activity
    (activity_id datetime duration distance : json) (channels : json * json) : json :=
  let items :=
    [("id", activity_id); ("datetime", datetime);
     ("duration", duration); ("distance", distance)] in
  let items := dict_set items "heartrate" (fst channels) in
  let items := dict_set items "velocity_smooth" (snd channels) in
  JDict items.

Section Library.
(** Library functions the script calls: [repr] (used by [str] on a
    float, a list or a dict), [json.load] on the text of a file, and
    [json.dump] with [indent=2]. *)
Variable repr : json -> string.
Variable json_load : string -> load_result.
Variable json_dump : json -> string.

Definition load_activities : M line json :=
  file <- read activities_json ;;
  match file with
  | None => raise FileNotFoundError
  | Some text =>
      match json_load text with
      | Loaded activities => ret activities
      | DecodeError msg => raise (JSONDecodeError msg)
      end
  end.

Definition load_stream_data (activity_id : string) : M line json :=
  dir <- read streams ;;
  match dir !! stream_file activity_id with
  | None =>
      print (Warning_stream_not_found activity_id (stream_file activity_id)) ;;
      ret (JDict [])
  | Some text =>
      match json_load text with
      | Loaded stream_data => ret stream_data
      | DecodeError msg =>
          print (Warning_stream_parse activity_id msg) ;;
          ret (JDict [])
      end
  end.

(** The body of the loop of lines 58-103 for one [activity];
    [processed_activities] is the list built so far, and a [continue]
    returns it unchanged. *)
Definition process_activity (processed_activities : list json) (activity : json)
  : M line (list json) :=
  type <- lift (get activity "type" JNull) ;;
  if negb (eq_str type "Run") then ret processed_activities
  else
    activity_id <- lift (get activity "id" JNull) ;;
    if negb (truthy activity_id) then
      print (Warning_missing_id activity) ;;
      ret processed_activities
    else
      datetime <- lift (get activity "start_date_local" JNull) ;;
      moving_time <- lift (get activity "moving_time" JNull) ;;
      duration <- (if truthy moving_time then ret moving_time
                   else lift (get activity "elapsed_time" JNull)) ;;
      distance <- lift (get activity "distance" JNull) ;;
      stream_data <- load_stream_data (str repr activity_id) ;;
      ret (processed_activities ++
           [processed_activity activity_id datetime duration distance
              (extract_channels stream_data)]).

Fixpoint process_loop (activities : list json) (processed_activities : list json)
  : M line (list json) :=
  match activities with
  | [] => ret processed_activities
  | activity :: rest =>
      processed_activities <- process_activity processed_activities activity ;;
      process_loop rest processed_activities
  end.

Definition set_output (text : string) (fs : files) : files :=
  {| activities_json := activities_json fs;
     streams := streams fs;
     processed_activities_json := Some text |}.

(** [process_activities(data_dir, output_file)], with [output_file] the
    [processed_activities.json] of the data directory as [main] passes
    it. *)
Definition process_activities : M line unit :=
  print Loading_activities ;;
  activities <- load_activities ;;
  n <- lift (len activities) ;;
  print (Found n) ;;
  items <- lift (iter activities) ;;
  processed_activities <- process_loop items [] ;;
  print (Processed (length processed_activities)) ;;
  print Writing_output ;;
  write (set_output (json_dump (JList processed_activities))) ;;
  print Done.
End Library.

End ProcessActivities.

(** ** scripts/download_activities.py *)

Module DownloadActivities.

(** The lines the script prints, by their format string. *)
Inductive line : Type :=
| Http_error (code : Z) (reason : string)       (* "HTTP Error {e.code}: {e.reason}" *)
| Url (url : string)                            (* "URL: {url}" *)
| Authentication_failed     (* "Authentication failed. Please check your API token." *)
| Url_error (reason : string)                   (* "URL Error: {e.reason}" *)
| Fetching_activities (start_date end_date : string)
    (* "Fetching activities from {start_date} to {end_date}..." *)
| Found (n : nat)                               (* "Found {len(activities)} activities" *)
| Warning_could_not_fetch (activity_id : string) (e : exn)
    (* "Warning: Could not fetch streams for activity {activity_id}: {e}" *)
| Usage                                         (* the six lines of lines 83-88 *)
| Banner                                        (* lines 94-95 *)
| Fetching_athlete                              (* "\nFetching athlete information..." *)
| Athlete_id (athlete_id : Z)                   (* "Athlete ID: {athlete_id}" *)
| Saved_activities                              (* "\nSaved activities list to {activities_file}" *)
| Downloading_streams (n : nat)
    (* "\nDownloading streams for {len(activities)} activities..." *)
| Progress (i n : nat) (activity_date activity_name activity_id : string)
    (* "[{i}/{len(activities)}] {activity_date} - {activity_name} (ID: {activity_id})" *)
| No_streams                                    (* "  No streams available for this activity" *)
| Download_complete (n : nat).                  (* lines 132-136 *)

(** Where [save_json] writes: the activities list or a file of [streams/]. *)
Inductive path : Type :=
| Activities_file
| Streams_file (name : string).

Section Library.
(** Library functions and the remote service: [repr], [json.loads],
    [json.dump] with [indent=2, ensure_ascii=False], [base64.b64encode]
    (from and to text), and [urlopen] followed by [read().decode('utf-8')]
    as a function of the URL and the [Authorization] header, which
    returns the body or raises [HTTPError] or [URLError]. *)
Variable repr : json -> string.
Variable json_loads : string -> load_result.
Variable json_dump : json -> string.
Variable b64encode : string -> string.
Variable urlopen : string -> string -> outcome string.

(** The [Authorization] header of lines 23-27. *)
Definition authorization (api_token : string) : string :=
  let credentials := "API_KEY:" +:+ api_token in
  let encoded_credentials := b64encode credentials in
  "Basic " +:+ encoded_credentials.

Definition make_api_request (url api_token : string) : M line json :=
  try_except
    (body <- lift (urlopen url (authorization api_token)) ;;
     match json_loads body with
     | Loaded v => ret v
     | DecodeError msg => raise (JSONDecodeError msg)
     end)
    (fun e => match e with HTTPError _ _ | URLError _ => true | _ => false end)
    (fun e =>
       match e with
       | HTTPError code reason =>
           print (Http_error code reason) ;;
           print (Url url) ;;
           (if code =? 401 then print Authentication_failed else ret tt) ;;
           raise (SystemExit 1)
       | URLError reason =>
           print (Url_error reason) ;;
           raise (SystemExit 1)
       | _ => raise e
       end).

(** [[a for a in activities if a.get('type') == 'Run']] *)
Fixpoint only_runs (activities : list json) : outcome (list json) :=
  match activities with
  | [] => Return []
  | a :: rest =>
      match get a "type" JNull with
      | Raise e => Raise e
      | Return type =>
          match only_runs rest with
          | Raise e => Raise e
          | Return runs => Return (if eq_str type "Run" then a :: runs else runs)
          end
      end
  end.

Definition get_activities (athlete_id : Z) (api_token : string) (year : Z)
  : M line (list json) :=
  let start_date := pretty year +:+ "-01-01" in
  let end_date := pretty year +:+ "-12-31" in
  let url := "https://intervals.icu/api/v1/athlete/" +:+ pretty athlete_id +:+
             "/activities?oldest=" +:+ start_date +:+ "&newest=" +:+ end_date in
  print (Fetching_activities start_date end_date) ;;
  activities <- make_api_request url api_token ;;
  items <- lift (iter activities) ;;
  activities <- lift (only_runs items) ;;
  print (Found (length activities)) ;;
  ret activities.

(** The [url] of line 64. *)
Definition streams_url (activity_id : json) : string :=
  "https://intervals.icu/api/v1/activity/" +:+ str repr activity_id +:+ "/streams".

Definition get_activity_streams (athlete_id : Z) (activity_id : json) (api_token : string)
  : M line json :=
  let url := streams_url activity_id in
  try_except
    (make_api_request url api_token)
    is_Exception
    (fun e =>
       print (Warning_could_not_fetch (str repr activity_id) e) ;;
       ret (JDict [])).

Definition save_json (data : json) (filepath : path) : M line unit :=
  write (fun fs =>
    match filepath with
    | Activities_file =>
        {| activities_json := Some (json_dump data);
           streams := streams fs;
           processed_activities_json := processed_activities_json fs |}
    | Streams_file name =>
        {| activities_json := activities_json fs;
           streams := <[name := json_dump data]> (streams fs);
           processed_activities_json := processed_activities_json fs |}
    end).

(** The body of the loop of lines 116-130; [i] counts from 1 and [n] is
    [len(activities)]. *)
Definition download_streams_of
    (athlete_id : Z) (api_token : string) (n i : nat) (activity : json) : M line unit :=
  activity_id <- lift (get activity "id" JNull) ;;
  activity_name <- lift (get activity "name" (JStr "Unnamed")) ;;
  activity_date <- lift (get activity "start_date_local" (JStr "unknown")) ;;
  print (Progress i n (str repr activity_date) (str repr activity_name)
           (str repr activity_id)) ;;
  streams <- get_activity_streams athlete_id activity_id api_token ;;
  if truthy streams then
    save_json streams (Streams_file (stream_file (str repr activity_id)))
  else
    print No_streams.

Fixpoint download_streams
    (athlete_id : Z) (api_token : string) (n i : nat) (activities : list json)
  : M line unit :=
  match activities with
  | [] => ret tt
  | activity :: rest =>
      download_streams_of athlete_id api_token n i activity ;;
      download_streams athlete_id api_token n (S i) rest
  end.

(** [main()], with [argv] for [sys.argv]. *)
Definition main (argv : list string) : M line unit :=
  match argv with
  | [_; api_token] =>
      print Banner ;;
      print Fetching_athlete ;;
      let athlete_id := 0 in
      print (Athlete_id athlete_id) ;;
      activities <- get_activities athlete_id api_token 2025 ;;
      save_json (JList activities) Activities_file ;;
      print Saved_activities ;;
      print (Downloading_streams (length activities)) ;;
      download_streams athlete_id api_token (length activities) 1%nat activities ;;
      print (Download_complete (length activities))
  | _ =>
      print Usage ;;
      raise (SystemExit 1)
  end.
End Library.

End DownloadActivities.

(** ** What the Merger keeps and what it builds *)

(** The test of line 60, [activity.get('type') == 'Run'], on the items of an
    activity. *)
Definition is_run (items : list (string * json)) : bool :=
  eq_str (dict_get items "type" JNull) "Run".

(** The test of line 64 negated: the activity has an identifier that
    Python takes as true. *)
Definition has_id (items : list (string * json)) : bool :=
  truthy (dict_get items "id" JNull).

Definition kept (activity : json) : bool :=
  match activity with
  | JDict items => is_run items && has_id items
  | _ => false
  end.

Definition is_record (v : json) : bool :=
  match v with
  | JDict _ => true
  | _ => false
  end.

Definition is_sequence (v : json) : bool :=
  match v with
  | JList _ => true
  | _ => false
  end.

(** The values of a record's fields. *)
Definition field (key : string) (record : json) : json :=
  match record with
  | JDict items => dict_get items key JNull
  | _ => JNull
  end.

Definition has_field (key : string) (record : json) : bool :=
  match record with
  | JDict items => dict_has items key
  | _ => false
  end.

(** [let '(r, fs, out) := run in (r, fs, lines ++ out)]: the run [run]
    after [lines] were printed. *)
Definition after {line A} (lines : list line) (run : outcome A * files * list line)
  : outcome A * files * list line :=
  let '(r, fs, out) := run in (r, fs, lines ++ out).

Section MergerModel.
Import ProcessActivities.
Variable repr : json -> string.
Variable json_load : string -> load_result.

(** What [load_stream_data] returns and prints, as functions of the
    [streams/] directory. *)
Definition stream_data_of (dir : gmap string string) (activity_id : string) : json :=
  match dir !! stream_file activity_id with
  | None => JDict []
  | Some text =>
      match json_load text with
      | Loaded stream_data => stream_data
      | DecodeError _ => JDict []
      end
  end.

Definition stream_warnings (dir : gmap string string) (activity_id : string) : list line :=
  match dir !! stream_file activity_id with
  | None => [Warning_stream_not_found activity_id (stream_file activity_id)]
  | Some text =>
      match json_load text with
      | Loaded _ => []
      | DecodeError msg => [Warning_stream_parse activity_id msg]
      end
  end.

(** The value of line 72 for the items of an activity. *)
Definition duration_of (items : list (string * json)) : json :=
  if truthy (dict_get items "moving_time" JNull)
  then dict_get items "moving_time" JNull
  else dict_get items "elapsed_time" JNull.

(** The record the loop appends for a kept activity, given its channels. *)
Definition merged_with (channels : json * json) (items : list (string * json)) : json :=
  processed_activity (dict_get items "id" JNull)
    (dict_get items "start_date_local" JNull)
    (duration_of items)
    (dict_get items "distance" JNull)
    channels.

Definition merged (dir : gmap string string) (activity : json) : json :=
  match activity with
  | JDict items =>
      merged_with
        (extract_channels (stream_data_of dir (str repr (dict_get items "id" JNull))))
        items
  | _ => JNull
  end.

(** The lines one pass of the loop prints for an activity. *)
Definition warnings_of (dir : gmap string string) (activity : json) : list line :=
  match activity with
  | JDict items =>
      if is_run items then
        if has_id items
        then stream_warnings dir (str repr (dict_get items "id" JNull))
        else [Warning_missing_id activity]
      else []
  | _ => []
  end.
End MergerModel.


(** ** The specification's wording, to compare with the code *)

(** The data of the first record of [streams] whose channel name is [name],
    [default] when there is none.  Records that are not objects are passed
    over. *)
Fixpoint channel_from (default : json) (name : string) (streams : list json) : json :=
  match streams with
  | [] => default
  | JDict items :: rest =>
      if eq_str (dict_get items "type" JNull) name
      then dict_get items "data" (JList [])
      else channel_from default name rest
  | _ :: rest => channel_from default name rest
  end.

(** As the specification words it: the first record with the channel name
    supplies the channel, and a channel not found is the empty sequence. *)
Definition first_channel (name : string) (streams : list json) : json :=
  channel_from (JList []) name streams.

(** The same with the last record instead of the first. *)
Definition last_channel (name : string) (streams : list json) : json :=
  channel_from (JList []) name (rev streams).



(** As the specification words it: the duration is the moving time when
    that is present, else the elapsed time when that is present, and the
    record has no duration field when both are absent. *)
Definition duration_as_claimed (items : list (string * json)) (record : json) : Prop :=
  (dict_has items "moving_time" = true ->
   field "duration" record = dict_get items "moving_time" JNull) /\
  (dict_has items "moving_time" = false -> dict_has items "elapsed_time" = true ->
   field "duration" record = dict_get items "elapsed_time" JNull) /\
  (dict_has items "moving_time" = false -> dict_has items "elapsed_time" = false ->
   has_field "duration" record = false).

(** ** Sample inputs

    Concrete library functions, files and a remote service, on which the
    statements below are evaluated. *)

Module Samples.
Definition dq : string := String (Ascii.ascii_of_nat 34) "".

(** [json.dumps] with its default separators, for values without floats
    and strings that need no escape. *)
Fixpoint dumps (v : json) : string :=
  match v with
  | JNull => "null"
  | JBool true => "true"
  | JBool false => "false"
  | JInt n => pretty n
  | JFloat _ => "NaN"
  | JStr s => dq +:+ s +:+ dq
  | JList items =>
      "[" +:+
      (fix elements (l : list json) : string :=
         match l with
         | [] => ""
         | [x] => dumps x
         | x :: rest => dumps x +:+ ", " +:+ elements rest
         end) items +:+ "]"
  | JDict items =>
      "{" +:+
      (fix members (l : list (string * json)) : string :=
         match l with
         | [] => ""
         | [(k, x)] => dq +:+ k +:+ dq +:+ ": " +:+ dumps x
         | (k, x) :: rest => dq +:+ k +:+ dq +:+ ": " +:+ dumps x +:+ ", " +:+ members rest
         end) items +:+ "}"
  end.

(** [str] of the sample identifiers (strings and integers) never calls
    [repr]. *)
Definition repr (v : json) : string := dumps v.

Definition stream_list : json :=
  JList [JDict [("type", JStr "heartrate"); ("data", JList [JInt 10; JInt 20])];
         JDict [("type", JStr "cadence"); ("data", JList [JInt 1])]].

Definition stream_mapping : json :=
  JDict [("heartrate", JList [JInt 1; JInt 2; JInt 3]);
         ("velocity_smooth", JList [JInt 4; JInt 5])].

Definition stream_repeated : json :=
  JList [JDict [("type", JStr "heartrate"); ("data", JList [JInt 1])];
         JDict [("type", JStr "heartrate"); ("data", JList [JInt 2])]].

Definition stream_null : json := JDict [("heartrate", JNull)].

Definition run (id : json) (rest : list (string * json)) : json :=
  JDict (("type", JStr "Run") :: ("id", id) :: rest).

Definition run1 : json :=
  run (JStr "i1") [("start_date_local", JStr "2025-01-05T07:30:00");
                   ("moving_time", JInt 1750); ("elapsed_time", JInt 1800);
                   ("distance", JInt 5000)].
Definition run2 : json := run (JStr "i2") [("elapsed_time", JInt 1800)].
Definition run3 : json := run (JStr "i3") [("moving_time", JInt 0); ("elapsed_time", JInt 1800)].
Definition run4 : json := run (JStr "i4") [].
Definition run_zero : json := run (JInt 0) [("elapsed_time", JInt 60)].
Definition run_empty : json := run (JStr "") [].
Definition ride : json := JDict [("type", JStr "Ride"); ("id", JStr "i9")].
Definition untyped : json := JDict [("id", JStr "i10")].

Definition activities : list json :=
  [run1; ride; run_zero; run2; untyped; run3; run_empty; run4].

(** The documents [json_load] knows; any other text is not JSON. *)
Definition documents : list json :=
  [JList activities; stream_list; stream_mapping; stream_repeated; stream_null;
   JList [run1; run2]].

Definition json_load (text : string) : load_result :=
  match find (fun v => String.eqb (dumps v) text) documents with
  | Some v => Loaded v
  | None => DecodeError "Expecting value: line 1 column 1 (char 0)"
  end.

Definition json_dump : json -> string := dumps.

Definition data_dir : files :=
  {| activities_json := Some (dumps (JList activities));
     streams := {[ "i1.json" := dumps stream_list;
                   "i2.json" := dumps stream_mapping;
                   "i3.json" := "<html>Bad Gateway</html>";
                   "i4.json" := dumps stream_null ]};
     processed_activities_json := Some "[]" |}.

Definition empty_dir : files :=
  {| activities_json := None; streams := ∅; processed_activities_json := None |}.

(** A stand-in for [base64.b64encode]; the sample service does not look
    at the header. *)
Definition b64encode (s : string) : string := s.

(** A service that has two runs and answers 404 for the streams of the
    first. *)
Definition urlopen (url authorization : string) : outcome string :=
  if String.eqb url
       "https://intervals.icu/api/v1/athlete/0/activities?oldest=2025-01-01&newest=2025-12-31"
  then Return (dumps (JList [run1; run2]))
  else if String.eqb url "https://intervals.icu/api/v1/activity/i1/streams"
  then Raise (HTTPError 404 "Not Found")
  else if String.eqb url "https://intervals.icu/api/v1/activity/i2/streams"
  then Return (dumps stream_mapping)
  else Raise (URLError "unreachable").

(** The same service with a body that is not JSON for the first run. *)
Definition urlopen_garbled (url authorization : string) : outcome string :=
  if String.eqb url "https://intervals.icu/api/v1/activity/i1/streams"
  then Return "<html>Bad Gateway</html>"
  else urlopen url authorization.
End Samples.

(** ** Further notions for the properties of the two scripts *)

(** The keys of a record, in the order [json.dump] writes them. *)
Definition keys (record : json) : list string :=
  match record with
  | JDict items => map fst items
  | _ => []
  end.

(** A record of a list-form payload that the loop of lines 85-91 acts on:
    an object whose ['type'] is one of the two channel names. *)
Definition is_channel_record (stream : json) : bool :=
  match stream with
  | JDict items =>
      eq_str (dict_get items "type" JNull) "heartrate"
      || eq_str (dict_get items "type" JNull) "velocity_smooth"
  | _ => false
  end.

(** A decoded value on which [len] fails: None, a bool or a number. *)
Definition is_unsized (v : json) : bool :=
  match v with
  | JNull | JBool _ | JInt _ | JFloat _ => true
  | _ => false
  end.

(** The test of line 56 of the download script,
    [a.get('type') == 'Run'], on an activity that is an object. *)
Definition is_run_activity (a : json) : bool :=
  match a with
  | JDict items => is_run items
  | _ => false
  end.

(** The [url] of lines 47-50 of the download script. *)
Definition activities_url (athlete_id year : Z) : string :=
  let start_date := pretty year +:+ "-01-01" in
  let end_date := pretty year +:+ "-12-31" in
  "https://intervals.icu/api/v1/athlete/" +:+ pretty athlete_id +:+
  "/activities?oldest=" +:+ start_date +:+ "&newest=" +:+ end_date.

(** The files after [save_json] wrote [text] under [name] in [streams/],
    and after it wrote [text] as the activities list. *)
Definition with_stream (name text : string) (fs : files) : files :=
  {| activities_json := activities_json fs;
     streams := <[name := text]> (streams fs);
     processed_activities_json := processed_activities_json fs |}.

Definition with_activities (text : string) (fs : files) : files :=
  {| activities_json := Some text;
     streams := streams fs;
     processed_activities_json := processed_activities_json fs |}.


(** More sample inputs: documents that are not what the scripts expect,
    and services that fail in other ways. *)
Module MoreSamples.
Definition mixed : list json := [Samples.run1; JInt 5; Samples.run2].

Definition wrapped : json := JDict [("activities", JList [Samples.run1])].

Definition anonymous : json := JDict [("type", JStr "Run"); ("name", JStr "Morning Run")].

Definition documents : list json :=
  [JList mixed; wrapped; JNull; JInt 7; JDict []; JList [anonymous]].

Definition json_load (text : string) : load_result :=
  match find (fun v => String.eqb (Samples.dumps v) text) documents with
  | Some v => Loaded v
  | None => Samples.json_load text
  end.

Definition with_activities_text (text : string) : files :=
  {| activities_json := Some text;
     streams := streams Samples.data_dir;
     processed_activities_json := Some "[]" |}.

Definition garbled_dir : files := with_activities_text "<html>Bad Gateway</html>".
Definition mixed_dir : files := with_activities_text (Samples.dumps (JList mixed)).
Definition wrapped_dir : files := with_activities_text (Samples.dumps wrapped).
Definition null_dir : files := with_activities_text "null".

(** [streams/] with a number in the file of the first run and no file for
    the second. *)
Definition odd_streams : files :=
  {| activities_json := activities_json Samples.data_dir;
     streams := {[ "i1.json" := "7"; "i3.json" := "<html>Bad Gateway</html>" ]};
     processed_activities_json := None |}.

Definition list_url : string :=
  "https://intervals.icu/api/v1/athlete/0/activities?oldest=2025-01-01&newest=2025-12-31".

(** A service that refuses the token. *)
Definition urlopen_unauthorized (url authorization : string) : outcome string :=
  Raise (HTTPError 401 "Unauthorized").

(** A service behind a proxy that answers every request with a page. *)
Definition urlopen_page (url authorization : string) : outcome string :=
  Return "<html>Bad Gateway</html>".

(** A service whose list mixes categories, and one whose list holds a
    number. *)
Definition urlopen_all (url authorization : string) : outcome string :=
  if String.eqb url list_url then Return (Samples.dumps (JList Samples.activities))
  else Samples.urlopen url authorization.

Definition urlopen_mixed (url authorization : string) : outcome string :=
  if String.eqb url list_url then Return (Samples.dumps (JList mixed))
  else Samples.urlopen url authorization.

(** A service with no stream data for the first run, and one that lists a
    run without identifier and has streams under [None]. *)
Definition urlopen_empty (url authorization : string) : outcome string :=
  if String.eqb url "https://intervals.icu/api/v1/activity/i1/streams"
  then Return "{}"
  else Samples.urlopen url authorization.

Definition urlopen_anonymous (url authorization : string) : outcome string :=
  if String.eqb url list_url then Return (Samples.dumps (JList [anonymous]))
  else if String.eqb url "https://intervals.icu/api/v1/activity/None/streams"
  then Return (Samples.dumps Samples.stream_mapping)
  else Samples.urlopen url authorization.
End MoreSamples.

(** * Properties of the Merger *)

Section MergerProperties.
Import ProcessActivities.
Variable repr : json -> string.
Variable json_load : string -> load_result.
Variable json_dump : json -> string.

Lemma dict_get_absent (items : list (string * json)) (key : string) (default : json) :
  dict_has items key = false -> dict_get items key default = default.
Proof.
  unfold dict_has. induction items as [|[k v] rest IH]; simpl; [reflexivity|].
  destruct (String.eqb k key); simpl; [discriminate|exact IH].
Qed.

Lemma after_nil {A} (run : outcome A * files * list line) : after [] run = run.
Proof. destruct run as [[r fs] out]. reflexivity. Qed.

Lemma load_stream_data_eq (activity_id : string) (fs : files) :
  load_stream_data json_load activity_id fs
  = (Return (stream_data_of json_load (streams fs) activity_id), fs,
     stream_warnings json_load (streams fs) activity_id).
Proof.
  unfold load_stream_data, stream_data_of, stream_warnings, bind, read.
  destruct (streams fs !! stream_file activity_id) as [text|]; [|reflexivity].
  destruct (json_load text); reflexivity.
Qed.

(** One pass of the loop on a JSON object: it never fails and never
    writes; it appends the merged record when the activity is kept. *)
Lemma process_activity_record (processed : list json) (items : list (string * json))
    (fs : files) :
  process_activity repr json_load processed (JDict items) fs
  = (Return (processed ++
             if kept (JDict items)
             then [merged repr json_load (streams fs) (JDict items)] else []),
     fs, warnings_of repr json_load (streams fs) (JDict items)).
Proof.
  unfold process_activity, kept, warnings_of, merged, merged_with, duration_of,
    is_run, has_id.
  unfold bind at 1. simpl.
  destruct (eq_str (dict_get items "type" JNull) "Run"); simpl;
    [|unfold ret; rewrite app_nil_r; reflexivity].
  unfold bind at 1. simpl.
  destruct (truthy (dict_get items "id" JNull)); simpl;
    [|unfold ret; rewrite app_nil_r; reflexivity].
  unfold bind. simpl.
  destruct (truthy (dict_get items "moving_time" JNull)); simpl;
    rewrite load_stream_data_eq; simpl; rewrite app_nil_r; reflexivity.
Qed.

(** On anything that is not a JSON object the first [.get] fails. *)
Lemma process_activity_not_record (processed : list json) (activity : json) (fs : files) :
  is_record activity = false ->
  process_activity repr json_load processed activity fs = (Raise AttributeError, fs, []).
Proof. destruct activity; simpl; intros H; try discriminate H; reflexivity. Qed.

Lemma process_loop_cons_record (items : list (string * json)) (rest processed : list json)
    (fs : files) :
  process_loop repr json_load (JDict items :: rest) processed fs
  = after (warnings_of repr json_load (streams fs) (JDict items))
      (process_loop repr json_load rest
         (processed ++
          if kept (JDict items)
          then [merged repr json_load (streams fs) (JDict items)] else [])
         fs).
Proof.
  simpl. unfold bind. rewrite process_activity_record.
  destruct (process_loop _ _ _ _ _) as [[r fs'] out]. reflexivity.
Qed.

(** The whole loop over JSON objects. *)
Lemma process_loop_records (activities processed : list json) (fs : files) :
  Forall (fun a => is_record a = true) activities ->
  process_loop repr json_load activities processed fs
  = (Return (processed ++
             map (merged repr json_load (streams fs)) (List.filter kept activities)),
     fs, flat_map (warnings_of repr json_load (streams fs)) activities).
Proof.
  intros Hrec. revert processed.
  induction Hrec as [|a rest Ha _ IH]; intros processed.
  - simpl. unfold ret. rewrite app_nil_r. reflexivity.
  - destruct a; try discriminate Ha.
    rewrite process_loop_cons_record, IH.
    cbn [List.filter flat_map after].
    destruct (kept (JDict items)); cbn [map]; rewrite <- app_assoc; reflexivity.
Qed.

(** C9. An activity whose category is not 'Run', or that has none, is
    left out without a word: the loop goes on exactly as if the record
    were not in the collection, whatever the Extractor filtered before. *)
Theorem other_category_silently_excluded
    (items : list (string * json)) (rest processed : list json) (fs : files) :
  is_run items = false ->
  process_loop repr json_load (JDict items :: rest) processed fs
  = process_loop repr json_load rest processed fs.
Proof.
  intros Htype. rewrite process_loop_cons_record.
  unfold kept, warnings_of. rewrite Htype. simpl.
  rewrite app_nil_r. apply after_nil.
Qed.

Lemma missing_id_dropped
    (items : list (string * json)) (rest processed : list json) (fs : files) :
  is_run items = true ->
  has_id items = false ->
  process_loop repr json_load (JDict items :: rest) processed fs
  = after [Warning_missing_id (JDict items)]
      (process_loop repr json_load rest processed fs).
Proof.
  intros Htype Hid. rewrite process_loop_cons_record.
  unfold kept, warnings_of. rewrite Htype, Hid. simpl.
  rewrite app_nil_r. reflexivity.
Qed.

(** C10. A run whose identifier is the number 0 (the integer or a float
    zero) or the empty string is dropped with the missing-identifier
    warning, exactly as one that has no identifier: the loop prints the
    warning and goes on with the records built so far. *)
Theorem falsy_id_dropped_like_missing
    (items : list (string * json)) (rest processed : list json) (fs : files) :
  is_run items = true ->
  dict_get items "id" JNull = JInt 0 \/
  (exists sign, dict_get items "id" JNull = JFloat (S754_zero sign)) \/
  dict_get items "id" JNull = JStr "" \/
  dict_has items "id" = false ->
  process_loop repr json_load (JDict items :: rest) processed fs
  = after [Warning_missing_id (JDict items)]
      (process_loop repr json_load rest processed fs).
Proof.
  intros Htype Hid. apply missing_id_dropped; [exact Htype|].
  unfold has_id. destruct Hid as [E|[[sign E]|[E|E]]].
  - rewrite E. reflexivity.
  - rewrite E. reflexivity.
  - rewrite E. reflexivity.
  - rewrite (dict_get_absent _ _ _ E). reflexivity.
Qed.

(** The whole run on an activities file that holds a list of JSON
    objects. *)
Lemma process_activities_records (fs : files) (text : string) (activities : list json) :
  activities_json fs = Some text ->
  json_load text = Loaded (JList activities) ->
  Forall (fun a => is_record a = true) activities ->
  let output :=
    map (merged repr json_load (streams fs)) (List.filter kept activities) in
  process_activities repr json_load json_dump fs
  = (Return tt, set_output (json_dump (JList output)) fs,
     [Loading_activities; Found (length activities)] ++
     flat_map (warnings_of repr json_load (streams fs)) activities ++
     [Processed (length output); Writing_output; Done]).
Proof.
  intros Hfile Hload Hrec output.
  unfold process_activities, load_activities.
  unfold bind at 1. cbn [print].
  unfold bind at 1. unfold bind at 1. unfold read at 1. rewrite Hfile, Hload.
  cbn [ret].
  unfold bind at 1. cbn [lift len].
  unfold bind at 1. cbn [print].
  unfold bind at 1. cbn [lift iter].
  unfold bind at 1. rewrite (process_loop_records _ _ _ Hrec).
  cbn. reflexivity.
Qed.



(** One pass of the loop on a run that has an identifier. *)
Lemma process_activity_kept (processed : list json) (items : list (string * json))
    (fs : files) :
  is_run items = true ->
  has_id items = true ->
  process_activity repr json_load processed (JDict items) fs
  = (Return (processed ++
             [merged_with
                (extract_channels
                   (stream_data_of json_load (streams fs)
                      (str repr (dict_get items "id" JNull))))
                items]),
     fs,
     stream_warnings json_load (streams fs) (str repr (dict_get items "id" JNull))).
Proof.
  intros Htype Hid. rewrite process_activity_record.
  unfold kept, warnings_of, merged. rewrite Htype, Hid. reflexivity.
Qed.


(** C7. A run whose stream artifact holds a mapping: the record takes
    its heartrate and velocity from the keys "heartrate" and
    "velocity_smooth" of the mapping, the empty sequence for a key that
    is absent; for the mapping with heartrate [1,2,3] and velocity_smooth
    [4,5] they are [1,2,3] and [4,5]. *)
Theorem mapping_form_is_read_by_key
    (items : list (string * json)) (processed : list json) (fs : files)
    (text : string) (payload : list (string * json)) :
  is_run items = true ->
  has_id items = true ->
  streams fs !! stream_file (str repr (dict_get items "id" JNull)) = Some text ->
  json_load text = Loaded (JDict payload) ->
  exists record : json,
    process_activity repr json_load processed (JDict items) fs
    = (Return (processed ++ [record]), fs, []) /\
    field "heartrate" record = dict_get payload "heartrate" (JList []) /\
    field "velocity_smooth" record = dict_get payload "velocity_smooth" (JList []) /\
    (dict_has payload "heartrate" = false -> field "heartrate" record = JList []) /\
    (dict_has payload "velocity_smooth" = false ->
     field "velocity_smooth" record = JList []) /\
    (payload = [("heartrate", JList [JInt 1; JInt 2; JInt 3]);
                ("velocity_smooth", JList [JInt 4; JInt 5])] ->
     field "heartrate" record = JList [JInt 1; JInt 2; JInt 3] /\
     field "velocity_smooth" record = JList [JInt 4; JInt 5]).
Proof.
  intros Htype Hid Hfile Hload.
  eexists. rewrite (process_activity_kept _ _ _ Htype Hid).
  unfold stream_warnings, stream_data_of. rewrite Hfile, Hload.
  split; [reflexivity|].
  assert (Hchannels : extract_channels (JDict payload)
                      = (dict_get payload "heartrate" (JList []),
                         dict_get payload "velocity_smooth" (JList []))).
  { destruct payload; reflexivity. }
  rewrite Hchannels. cbn.
  split; [reflexivity|]. split; [reflexivity|].
  split; [intros H; apply dict_get_absent, H|].
  split; [intros H; apply dict_get_absent, H|].
  intros ->. split; reflexivity.
Qed.

(** C5, as the code has it.  The duration of a record is the moving time
    when that is present and true for Python (not null, zero or empty),
    else the elapsed time when that is present; the field is always in
    the record, and it is null when neither time is there. *)
Theorem duration_is_moving_or_elapsed
    (items : list (string * json)) (processed : list json) (fs : files) :
  is_run items = true ->
  has_id items = true ->
  exists record : json,
    fst (process_activity repr json_load processed (JDict items) fs)
    = (Return (processed ++ [record]), fs) /\
    has_field "duration" record = true /\
    (truthy (dict_get items "moving_time" JNull) = true ->
     field "duration" record = dict_get items "moving_time" JNull) /\
    (truthy (dict_get items "moving_time" JNull) = false ->
     field "duration" record = dict_get items "elapsed_time" JNull) /\
    (dict_has items "moving_time" = false -> dict_has items "elapsed_time" = false ->
     field "duration" record = JNull).
Proof.
  intros Htype Hid.
  eexists. rewrite (process_activity_kept _ _ _ Htype Hid).
  split; [reflexivity|]. cbn. unfold duration_of.
  split; [reflexivity|].
  split; [intros ->; reflexivity|].
  split; [intros ->; reflexivity|].
  intros Hm He. rewrite (dict_get_absent _ _ _ Hm). cbn.
  apply dict_get_absent, He.
Qed.




Lemma channel_from_snoc (default : json) (name : string) (streams : list json)
    (stream : json) :
  channel_from default name (streams ++ [stream])
  = channel_from (channel_from default name [stream]) name streams.
Proof.
  induction streams as [|s rest IH]; [reflexivity|].
  cbn [app channel_from]. destruct s; try exact IH.
  destruct (eq_str (dict_get items "type" JNull) name); [reflexivity|exact IH].
Qed.

Lemma eq_str_exclusive (v : json) (s s' : string) :
  eq_str v s = true -> s <> s' -> eq_str v s' = false.
Proof.
  destruct v; try discriminate. cbn. intros E Hne.
  apply String.eqb_eq in E. subst. apply String.eqb_neq, Hne.
Qed.

Lemma scan_stream_last (streams : list json) (heartrate velocity_smooth : json) :
  fold_left scan_stream streams (heartrate, velocity_smooth)
  = (channel_from heartrate "heartrate" (rev streams),
     channel_from velocity_smooth "velocity_smooth" (rev streams)).
Proof.
  revert heartrate velocity_smooth.
  induction streams as [|stream rest IH]; intros h v; [reflexivity|].
  cbn [fold_left rev]. rewrite !channel_from_snoc.
  destruct stream; cbn [scan_stream channel_from]; try apply IH.
  destruct (eq_str (dict_get items "type" JNull) "heartrate") eqn:E.
  - rewrite (eq_str_exclusive _ _ "velocity_smooth" E); [apply IH|discriminate].
  - destruct (eq_str (dict_get items "type" JNull) "velocity_smooth"); apply IH.
Qed.

(** C3, as the code has it.  For every stream payload in the list form,
    with or without records of the same channel name, the last record
    whose channel name is "heartrate" supplies the heartrate channel and
    the last whose channel name is "velocity_smooth" the velocity
    channel. *)
Theorem last_record_supplies_channel (streams : list json) :
  extract_channels (JList streams)
  = (last_channel "heartrate" streams, last_channel "velocity_smooth" streams).
Proof.
  unfold extract_channels, last_channel.
  destruct streams as [|stream rest]; [reflexivity|].
  cbn [truthy]. apply scan_stream_last.
Qed.

(** The loop reads the [streams/] directory and nothing else, and writes
    nothing. *)
Lemma process_activity_reads_streams (processed : list json) (activity : json)
    (fs1 fs2 : files) :
  streams fs1 = streams fs2 ->
  exists r out,
    process_activity repr json_load processed activity fs1 = (r, fs1, out) /\
    process_activity repr json_load processed activity fs2 = (r, fs2, out).
Proof.
  intros Hdir. destruct (is_record activity) eqn:Hrec.
  - destruct activity; try discriminate Hrec.
    rewrite !process_activity_record, Hdir. eauto.
  - rewrite !(process_activity_not_record _ _ _ Hrec). eauto.
Qed.

Lemma process_loop_reads_streams (activities processed : list json) (fs1 fs2 : files) :
  streams fs1 = streams fs2 ->
  exists r out,
    process_loop repr json_load activities processed fs1 = (r, fs1, out) /\
    process_loop repr json_load activities processed fs2 = (r, fs2, out).
Proof.
  intros Hdir. revert processed.
  induction activities as [|activity rest IH]; intros processed.
  - cbn. unfold ret. eauto.
  - cbn [process_loop]. unfold bind.
    destruct (process_activity_reads_streams processed activity fs1 fs2 Hdir)
      as (r & out & -> & ->).
    destruct r as [processed'|e]; [|eauto].
    destruct (IH processed') as (r' & out' & -> & ->). eauto.
Qed.

(** The whole run, case by case. *)
Lemma process_activities_cases (fs : files) :
  process_activities repr json_load json_dump fs
  = match activities_json fs with
    | None => (Raise FileNotFoundError, fs, [Loading_activities])
    | Some text =>
        match json_load text with
        | DecodeError msg => (Raise (JSONDecodeError msg), fs, [Loading_activities])
        | Loaded activities =>
            match len activities with
            | Raise e => (Raise e, fs, [Loading_activities])
            | Return n =>
                match iter activities with
                | Raise e => (Raise e, fs, [Loading_activities; Found n])
                | Return elements =>
                    match process_loop repr json_load elements [] fs with
                    | (Return processed, fs', out) =>
                        (Return tt, set_output (json_dump (JList processed)) fs',
                         [Loading_activities; Found n] ++ out ++
                         [Processed (length processed); Writing_output; Done])
                    | (Raise e, fs', out) =>
                        (Raise e, fs', [Loading_activities; Found n] ++ out)
                    end
                end
            end
        end
    end.
Proof.
  unfold process_activities, load_activities, bind, print, read, lift, write.
  destruct (activities_json fs) as [text|]; [|reflexivity].
  destruct (json_load text) as [activities|msg]; [|reflexivity].
  cbn [ret]. destruct (len activities) as [n|e]; [|reflexivity].
  destruct (iter activities) as [elements|e]; [|reflexivity].
  destruct (process_loop repr json_load elements [] fs) as [[[processed|e] fs'] out];
    reflexivity.
Qed.

(** The outcome, the printed lines and the text written depend on
    [activities.json] and [streams/] only; the run writes the output file
    when it returns and nothing when it raises. *)
Lemma process_activities_reads_inputs (fs1 fs2 : files) :
  activities_json fs1 = activities_json fs2 ->
  streams fs1 = streams fs2 ->
  exists r out (update : files -> files),
    process_activities repr json_load json_dump fs1 = (r, update fs1, out) /\
    process_activities repr json_load json_dump fs2 = (r, update fs2, out) /\
    ((exists text, r = Return tt /\ update = set_output text) \/
     (exists e, r = Raise e /\ update = fun fs => fs)).
Proof.
  intros Hfile Hdir. rewrite !process_activities_cases, <- Hfile.
  destruct (activities_json fs1) as [text|];
    [|eexists _, _, (fun fs => fs); eauto 6].
  destruct (json_load text) as [activities|msg];
    [|eexists _, _, (fun fs => fs); eauto 6].
  destruct (len activities) as [n|e]; [|eexists _, _, (fun fs => fs); eauto 6].
  destruct (iter activities) as [elements|e]; [|eexists _, _, (fun fs => fs); eauto 6].
  destruct (process_loop_reads_streams elements [] fs1 fs2 Hdir) as (r & out & -> & ->).
  destruct r as [processed|e].
  - eexists _, _, (set_output _). eauto 7.
  - eexists _, _, (fun fs => fs). eauto 7.
Qed.

End MergerProperties.

(** ** The Merger on the sample data directory *)

Lemma other_category_silently_excluded_witness :
  is_run [("type", JStr "Ride"); ("id", JStr "i9")] = false /\
  ProcessActivities.process_loop Samples.repr Samples.json_load
    (Samples.ride :: [Samples.run2]) [] Samples.data_dir
  = ProcessActivities.process_loop Samples.repr Samples.json_load
      [Samples.run2] [] Samples.data_dir.
Proof.
  split; [reflexivity|].
  apply (other_category_silently_excluded Samples.repr Samples.json_load
           [("type", JStr "Ride"); ("id", JStr "i9")] [Samples.run2] [] Samples.data_dir).
  reflexivity.
Defined.

Lemma falsy_id_dropped_like_missing_witness :
  ProcessActivities.process_loop Samples.repr Samples.json_load
    (Samples.run_zero :: [Samples.run2]) [] Samples.data_dir
  = after [ProcessActivities.Warning_missing_id Samples.run_zero]
      (ProcessActivities.process_loop Samples.repr Samples.json_load
         [Samples.run2] [] Samples.data_dir).
Proof.
  apply (falsy_id_dropped_like_missing Samples.repr Samples.json_load
           [("type", JStr "Run"); ("id", JInt 0); ("elapsed_time", JInt 60)]
           [Samples.run2] [] Samples.data_dir).
  - reflexivity.
  - left. reflexivity.
Defined.



Lemma mapping_form_is_read_by_key_witness :
  exists record : json,
    ProcessActivities.process_activity Samples.repr Samples.json_load [] Samples.run2
      Samples.data_dir
    = (Return [record], Samples.data_dir, []) /\
    field "heartrate" record = JList [JInt 1; JInt 2; JInt 3] /\
    field "velocity_smooth" record = JList [JInt 4; JInt 5].
Proof.
  destruct (mapping_form_is_read_by_key Samples.repr Samples.json_load
              [("type", JStr "Run"); ("id", JStr "i2"); ("elapsed_time", JInt 1800)]
              [] Samples.data_dir (Samples.dumps Samples.stream_mapping)
              [("heartrate", JList [JInt 1; JInt 2; JInt 3]);
               ("velocity_smooth", JList [JInt 4; JInt 5])]
              eq_refl eq_refl eq_refl eq_refl)
    as (record & Hrun & _ & _ & _ & _ & Hexample).
  exists record. split; [exact Hrun|]. apply Hexample. reflexivity.
Defined.

Lemma duration_is_moving_or_elapsed_witness :
  exists record : json,
    fst (ProcessActivities.process_activity Samples.repr Samples.json_load []
           Samples.run2 Samples.data_dir)
    = (Return [record], Samples.data_dir) /\
    field "duration" record = JInt 1800.
Proof.
  destruct (duration_is_moving_or_elapsed Samples.repr Samples.json_load
              [("type", JStr "Run"); ("id", JStr "i2"); ("elapsed_time", JInt 1800)]
              [] Samples.data_dir eq_refl eq_refl)
    as (record & Hrun & _ & _ & Helapsed & _).
  exists record. split; [exact Hrun|]. apply Helapsed. reflexivity.
Defined.



(** ** Where the code departs from the specification's wording *)

(** The list form of the specification's example: the heartrate record is
    read and the cadence record is passed over. *)
Example list_form_example :
  ProcessActivities.extract_channels Samples.stream_list
  = (JList [JInt 10; JInt 20], JList []).
Proof. reflexivity. Qed.

(** C3: with two heartrate records the channel is the data of the second,
    not of the first. *)
Lemma first_record_does_not_supply_channel :
  Samples.stream_repeated
  = JList [JDict [("type", JStr "heartrate"); ("data", JList [JInt 1])];
           JDict [("type", JStr "heartrate"); ("data", JList [JInt 2])]] /\
  fst (ProcessActivities.extract_channels Samples.stream_repeated) = JList [JInt 2] /\
  first_channel "heartrate"
    [JDict [("type", JStr "heartrate"); ("data", JList [JInt 1])];
     JDict [("type", JStr "heartrate"); ("data", JList [JInt 2])]]
  = JList [JInt 1] /\
  fst (ProcessActivities.extract_channels Samples.stream_repeated)
  <> first_channel "heartrate"
       [JDict [("type", JStr "heartrate"); ("data", JList [JInt 1])];
        JDict [("type", JStr "heartrate"); ("data", JList [JInt 2])]].
Proof. repeat split. discriminate. Qed.


(** C5: a moving time of 0 is present and the duration is the elapsed
    time; with neither time the record still has the field, holding
    null. *)
Lemma duration_is_not_as_claimed :
  (exists record : json,
     ProcessActivities.process_activity Samples.repr Samples.json_load []
       (JDict [("type", JStr "Run"); ("id", JStr "i3"); ("moving_time", JInt 0);
               ("elapsed_time", JInt 1800)]) Samples.data_dir
     = (Return [record], Samples.data_dir,
        [ProcessActivities.Warning_stream_parse "i3"
           "Expecting value: line 1 column 1 (char 0)"]) /\
     field "duration" record = JInt 1800 /\
     ~ duration_as_claimed
         [("type", JStr "Run"); ("id", JStr "i3"); ("moving_time", JInt 0);
          ("elapsed_time", JInt 1800)] record) /\
  (exists record : json,
     ProcessActivities.process_activity Samples.repr Samples.json_load []
       (JDict [("type", JStr "Run"); ("id", JStr "i4")]) Samples.data_dir
     = (Return [record], Samples.data_dir, []) /\
     has_field "duration" record = true /\
     field "duration" record = JNull /\
     ~ duration_as_claimed [("type", JStr "Run"); ("id", JStr "i4")] record).
Proof.
  split.
  - eexists. split; [vm_compute; reflexivity|]. split; [reflexivity|].
    intros (Hmoving & _). specialize (Hmoving eq_refl). discriminate Hmoving.
  - eexists. split; [vm_compute; reflexivity|]. split; [reflexivity|].
    split; [reflexivity|].
    intros (_ & _ & Habsent). specialize (Habsent eq_refl eq_refl). discriminate Habsent.
Qed.

(** * The Extractor and a failing stream fetch *)

Section ExtractorProperties.
Import DownloadActivities.
Variable repr : json -> string.
Variable json_loads : string -> load_result.
Variable json_dump : json -> string.
Variable b64encode : string -> string.
Variable urlopen : string -> string -> outcome string.

(** An HTTP error leaves [make_api_request] through [sys.exit(1)]. *)
Lemma make_api_request_http_error (url api_token : string) (code : Z) (reason : string)
    (fs : files) :
  urlopen url (authorization b64encode api_token) = Raise (HTTPError code reason) ->
  make_api_request json_loads b64encode urlopen url api_token fs
  = (Raise (SystemExit 1), fs,
     [Http_error code reason; Url url] ++
     if code =? 401 then [Authentication_failed] else []).
Proof.
  intros Hopen.
  unfold make_api_request, try_except, bind, lift. rewrite Hopen. cbn.
  destruct (code =? 401); reflexivity.
Qed.

(** [SystemExit] is not an [Exception]: the handler of
    [get_activity_streams] does not see it, and no warning is printed. *)
Lemma get_activity_streams_http_error (athlete_id : Z) (activity_id : json)
    (api_token : string) (code : Z) (reason : string) (fs : files) :
  urlopen (streams_url repr activity_id) (authorization b64encode api_token)
  = Raise (HTTPError code reason) ->
  get_activity_streams repr json_loads b64encode urlopen athlete_id activity_id api_token fs
  = (Raise (SystemExit 1), fs,
     [Http_error code reason; Url (streams_url repr activity_id)] ++
     if code =? 401 then [Authentication_failed] else []).
Proof.
  intros Hopen. unfold get_activity_streams, try_except.
  rewrite (make_api_request_http_error _ _ _ _ _ Hopen). reflexivity.
Qed.

(** A body that is not JSON is the failure the handler does catch. *)
Lemma get_activity_streams_bad_body (athlete_id : Z) (activity_id : json)
    (api_token body msg : string) (fs : files) :
  urlopen (streams_url repr activity_id) (authorization b64encode api_token) = Return body ->
  json_loads body = DecodeError msg ->
  get_activity_streams repr json_loads b64encode urlopen athlete_id activity_id api_token fs
  = (Return (JDict []), fs,
     [Warning_could_not_fetch (str repr activity_id) (JSONDecodeError msg)]).
Proof.
  intros Hopen Hload.
  unfold get_activity_streams, make_api_request, try_except, bind, lift.
  rewrite Hopen, Hload. reflexivity.
Qed.

(** X24. The loop of [main] stops at the first activity whose stream fetch
    meets an HTTP error; the activities after it are not visited. *)
Lemma download_streams_http_error (athlete_id : Z) (api_token : string) (n i : nat)
    (items : list (string * json)) (rest : list json) (code : Z) (reason : string)
    (fs : files) :
  urlopen (streams_url repr (dict_get items "id" JNull)) (authorization b64encode api_token)
  = Raise (HTTPError code reason) ->
  download_streams repr json_loads json_dump b64encode urlopen athlete_id api_token n i
    (JDict items :: rest) fs
  = (Raise (SystemExit 1), fs,
     [Progress i n (str repr (dict_get items "start_date_local" (JStr "unknown")))
        (str repr (dict_get items "name" (JStr "Unnamed")))
        (str repr (dict_get items "id" JNull));
      Http_error code reason; Url (streams_url repr (dict_get items "id" JNull))] ++
     if code =? 401 then [Authentication_failed] else []).
Proof.
  intros Hopen. cbn [download_streams]. unfold download_streams_of.
  unfold bind at 1 2. cbn [lift get].
  unfold bind at 1. cbn [lift get].
  unfold bind at 1. cbn [lift get].
  unfold bind at 1. cbn [print].
  unfold bind at 1.
  rewrite (get_activity_streams_http_error _ _ _ _ _ _ Hopen). reflexivity.
Qed.
End ExtractorProperties.

(** C2, where the code departs from it.  The sample service has two runs
    and answers 404 for the streams of the first: [main] ends with
    [SystemExit(1)] at that activity, prints the HTTP error and no warning,
    and never fetches the streams of the second run. *)
Theorem stream_fetch_http_error_ends_the_run :
  let '(r, fs, out) :=
    DownloadActivities.main Samples.repr Samples.json_load Samples.json_dump
      Samples.b64encode Samples.urlopen ["download_activities.py"; "token"]
      Samples.empty_dir in
  r = Raise (SystemExit 1) /\
  streams fs !! "i2.json" = None /\
  out = [DownloadActivities.Banner; DownloadActivities.Fetching_athlete;
         DownloadActivities.Athlete_id 0;
         DownloadActivities.Fetching_activities "2025-01-01" "2025-12-31";
         DownloadActivities.Found 2; DownloadActivities.Saved_activities;
         DownloadActivities.Downloading_streams 2;
         DownloadActivities.Progress 1 2 "2025-01-05T07:30:00" "Unnamed" "i1";
         DownloadActivities.Http_error 404 "Not Found";
         DownloadActivities.Url "https://intervals.icu/api/v1/activity/i1/streams"].
Proof. vm_compute. repeat split. Qed.

(** The same run when the first answer is a body that is not JSON: the
    failure is a warning and the second run's streams are saved. *)
Example garbled_stream_body_is_a_warning :
  let '(r, fs, out) :=
    DownloadActivities.main Samples.repr Samples.json_load Samples.json_dump
      Samples.b64encode Samples.urlopen_garbled ["download_activities.py"; "token"]
      Samples.empty_dir in
  r = Return tt /\
  streams fs !! "i1.json" = None /\
  streams fs !! "i2.json" = Some (Samples.dumps Samples.stream_mapping) /\
  In (DownloadActivities.Warning_could_not_fetch "i1"
        (JSONDecodeError "Expecting value: line 1 column 1 (char 0)")) out.
Proof. vm_compute. repeat split. tauto. Qed.

(** * Further properties of the Merger *)

Section MergerFurther.
Import ProcessActivities.
Variable repr : json -> string.
Variable json_load : string -> load_result.
Variable json_dump : json -> string.

(** X1. Without [activities.json] the run ends with [FileNotFoundError]
    after its first line; no file is written. *)
Theorem missing_activities_file_aborts (fs : files) :
  activities_json fs = None ->
  process_activities repr json_load json_dump fs
  = (Raise FileNotFoundError, fs, [Loading_activities]).
Proof. intros Hfile. rewrite process_activities_cases, Hfile. reflexivity. Qed.

(** X2. An [activities.json] that is not JSON is not handled the way a
    stream file is: the [JSONDecodeError] leaves the run, and no file is
    written. *)
Theorem malformed_activities_file_aborts (fs : files) (text msg : string) :
  activities_json fs = Some text ->
  json_load text = DecodeError msg ->
  process_activities repr json_load json_dump fs
  = (Raise (JSONDecodeError msg), fs, [Loading_activities]).
Proof.
  intros Hfile Hload. rewrite process_activities_cases, Hfile, Hload. reflexivity.
Qed.

Lemma process_loop_stops_at_non_record
    (before : list json) (bad : json) (rest processed : list json) (fs : files) :
  Forall (fun a => is_record a = true) before ->
  is_record bad = false ->
  process_loop repr json_load (before ++ bad :: rest) processed fs
  = (Raise AttributeError, fs, flat_map (warnings_of repr json_load (streams fs)) before).
Proof.
  intros Hbefore Hbad. revert processed.
  induction Hbefore as [|a before Ha _ IH]; intros processed.
  - cbn [app process_loop flat_map]. unfold bind.
    rewrite (process_activity_not_record _ _ _ _ _ Hbad). reflexivity.
  - destruct a; try discriminate Ha.
    cbn [app]. rewrite process_loop_cons_record, IH. reflexivity.
Qed.

(** X3. An element of the activities list that is not an object (a
    number, a string, a list, null) stops the run with [AttributeError] at
    that element: the activities before it were merged and their warnings
    printed, but the output file is not written. *)
Theorem non_record_activity_aborts_without_output
    (fs : files) (text : string) (before : list json) (bad : json) (rest : list json) :
  activities_json fs = Some text ->
  json_load text = Loaded (JList (before ++ bad :: rest)) ->
  Forall (fun a => is_record a = true) before ->
  is_record bad = false ->
  process_activities repr json_load json_dump fs
  = (Raise AttributeError, fs,
     [Loading_activities; Found (length (before ++ bad :: rest))] ++
     flat_map (warnings_of repr json_load (streams fs)) before).
Proof.
  intros Hfile Hload Hbefore Hbad.
  rewrite process_activities_cases, Hfile, Hload. cbn [len iter].
  rewrite (process_loop_stops_at_non_record _ _ _ _ _ Hbefore Hbad). reflexivity.
Qed.

(** X4. When [activities.json] holds something else than a list: on
    null, a bool or a number [len] fails with [TypeError] before the count
    is printed; on a non-empty object the count of its keys is printed and
    the loop, which visits the keys, fails with [AttributeError] at the
    first.  No file is written in either case. *)
Theorem activities_not_a_list_aborts (fs : files) (text : string) (v : json) :
  activities_json fs = Some text ->
  json_load text = Loaded v ->
  (is_unsized v = true ->
   process_activities repr json_load json_dump fs
   = (Raise TypeError, fs, [Loading_activities])) /\
  (forall member members, v = JDict (member :: members) ->
   process_activities repr json_load json_dump fs
   = (Raise AttributeError, fs, [Loading_activities; Found (S (length members))])).
Proof.
  intros Hfile Hload. rewrite process_activities_cases, Hfile, Hload. split.
  - destruct v; try discriminate; reflexivity.
  - intros member members ->. reflexivity.
Qed.


Lemma extract_channels_list (streams : list json) :
  extract_channels (JList streams)
  = fold_left scan_stream streams (JList [], JList []).
Proof. destruct streams; reflexivity. Qed.

Lemma scan_stream_other (channels : json * json) (stream : json) :
  is_channel_record stream = false -> scan_stream channels stream = channels.
Proof.
  destruct channels as [h v]. destruct stream; try reflexivity.
  cbn [is_channel_record scan_stream]. intros H. apply orb_false_elim in H.
  destruct H as [-> ->]. reflexivity.
Qed.

(** X6. In a list-form payload only the objects whose type is "heartrate"
    or "velocity_smooth" count: elements that are not objects, objects
    without type and records of other channels can be removed from the
    payload without changing the two channels. *)
Theorem other_records_are_passed_over (streams : list json) :
  extract_channels (JList streams)
  = extract_channels (JList (List.filter is_channel_record streams)).
Proof.
  rewrite !extract_channels_list.
  generalize (JList [], JList []).
  induction streams as [|stream rest IH]; intros channels; [reflexivity|].
  cbn [List.filter fold_left].
  destruct (is_channel_record stream) eqn:E.
  - cbn [fold_left]. apply IH.
  - rewrite (scan_stream_other _ _ E). apply IH.
Qed.

(** X7. A stream file that holds JSON of another shape (null, a bool, a
    number, a string) or an empty list or object gives the record with
    both channels empty, and no warning is printed. *)
Theorem other_payload_shape_is_empty_channels
    (items : list (string * json)) (processed : list json) (fs : files)
    (text : string) (payload : json) :
  is_run items = true ->
  has_id items = true ->
  streams fs !! stream_file (str repr (dict_get items "id" JNull)) = Some text ->
  json_load text = Loaded payload ->
  truthy payload = false \/ (is_sequence payload = false /\ is_record payload = false) ->
  process_activity repr json_load processed (JDict items) fs
  = (Return (processed ++ [merged_with (JList [], JList []) items]), fs, []).
Proof.
  intros Htype Hid Hfile Hload Hshape.
  rewrite (process_activity_kept _ _ _ _ _ Htype Hid).
  unfold stream_data_of, stream_warnings. rewrite Hfile, Hload.
  assert (Hempty : extract_channels payload = (JList [], JList [])).
  { unfold extract_channels. destruct Hshape as [->|[Hs Hr]]; [reflexivity|].
    destruct payload; try discriminate; destruct (truthy _); reflexivity. }
  rewrite Hempty. reflexivity.
Qed.
End MergerFurther.

Section MergerRecords.
Import ProcessActivities.
Variable repr : json -> string.
Variable json_load : string -> load_result.
Variable json_dump : json -> string.

Lemma kept_is_record (activities : list json) :
  Forall (fun a => is_record a = true) (List.filter kept activities).
Proof.
  apply List.Forall_forall. intros a Ha. apply List.filter_In in Ha.
  destruct Ha as [_ Ha]. destruct a; try discriminate Ha. reflexivity.
Qed.

(** X8. Every record of the output has exactly the fields id, datetime,
    duration, distance, heartrate, velocity_smooth, in this order; its id,
    datetime and distance are the activity's id, start_date_local and
    distance as they are (null for a key the activity does not have). *)
Theorem records_have_six_fields
    (fs : files) (text : string) (activities : list json) :
  activities_json fs = Some text ->
  json_load text = Loaded (JList activities) ->
  Forall (fun a => is_record a = true) activities ->
  exists output : list json,
    fst (process_activities repr json_load json_dump fs)
    = (Return tt, set_output (json_dump (JList output)) fs) /\
    Forall (fun record =>
              keys record
              = ["id"; "datetime"; "duration"; "distance"; "heartrate"; "velocity_smooth"])
      output /\
    Forall2 (fun activity record =>
               field "id" record = field "id" activity /\
               field "datetime" record = field "start_date_local" activity /\
               field "distance" record = field "distance" activity)
      (List.filter kept activities) output.
Proof.
  intros Hfile Hload Hrec.
  exists (map (merged repr json_load (streams fs)) (List.filter kept activities)).
  rewrite (process_activities_records _ _ _ _ _ _ Hfile Hload Hrec).
  split; [reflexivity|].
  pose proof (kept_is_record activities) as Hkept.
  split.
  - induction Hkept as [|a l Ha _ IH]; cbn [map]; constructor; [|exact IH].
    destruct a; try discriminate Ha. reflexivity.
  - induction Hkept as [|a l Ha _ IH]; cbn [map]; constructor; [|exact IH].
    destruct a; try discriminate Ha. repeat split.
Qed.

(** X9. The run never writes [activities.json] or [streams/], and when it
    ends with an exception it has written nothing at all: a previous
    output file is still there unchanged. *)
Theorem merger_never_writes_its_inputs (fs : files) :
  let '(r, fs', out) := process_activities repr json_load json_dump fs in
  activities_json fs' = activities_json fs /\
  streams fs' = streams fs /\
  (forall e, r = Raise e -> fs' = fs).
Proof.
  destruct (process_activities_reads_inputs repr json_load json_dump fs fs eq_refl eq_refl)
    as (r & out & update & -> & _ & [(text & -> & ->)|(e & -> & ->)]).
  - repeat split. intros e He. discriminate He.
  - repeat split.
Qed.

End MergerRecords.

(** * Further properties of the Extractor *)

Section ExtractorFurther.
Import DownloadActivities.
Variable repr : json -> string.
Variable json_loads : string -> load_result.
Variable json_dump : json -> string.
Variable b64encode : string -> string.
Variable urlopen : string -> string -> outcome string.

(** X11. Called with anything but one argument after the program name,
    [main] prints the usage and exits with status 1: nothing is requested
    and no file is written. *)
Theorem wrong_argument_count_prints_usage (argv : list string) (fs : files) :
  length argv <> 2%nat ->
  main repr json_loads json_dump b64encode urlopen argv fs
  = (Raise (SystemExit 1), fs, [Usage]).
Proof.
  intros Hlen. destruct argv as [|program [|api_token [|extra argv]]];
    try reflexivity. contradiction Hlen. reflexivity.
Qed.

Lemma make_api_request_url_error (url api_token reason : string) (fs : files) :
  urlopen url (authorization b64encode api_token) = Raise (URLError reason) ->
  make_api_request json_loads b64encode urlopen url api_token fs
  = (Raise (SystemExit 1), fs, [Url_error reason]).
Proof.
  intros Hopen. unfold make_api_request, try_except, bind, lift. rewrite Hopen.
  reflexivity.
Qed.

Lemma make_api_request_loaded (url api_token body : string) (v : json) (fs : files) :
  urlopen url (authorization b64encode api_token) = Return body ->
  json_loads body = Loaded v ->
  make_api_request json_loads b64encode urlopen url api_token fs = (Return v, fs, []).
Proof.
  intros Hopen Hload. unfold make_api_request, try_except, bind, lift.
  rewrite Hopen, Hload. reflexivity.
Qed.

Lemma make_api_request_bad_body (url api_token body msg : string) (fs : files) :
  urlopen url (authorization b64encode api_token) = Return body ->
  json_loads body = DecodeError msg ->
  make_api_request json_loads b64encode urlopen url api_token fs
  = (Raise (JSONDecodeError msg), fs, []).
Proof.
  intros Hopen Hload. unfold make_api_request, try_except, bind, lift.
  rewrite Hopen, Hload. reflexivity.
Qed.



(** One pass of the loop of [main] on an activity that is an object, by
    the way the fetch of its streams ends. *)
Lemma download_streams_of_record (athlete_id : Z) (api_token : string) (n i : nat)
    (items : list (string * json)) (fs : files) :
  download_streams_of repr json_loads json_dump b64encode urlopen athlete_id api_token
    n i (JDict items) fs
  = let activity_id := dict_get items "id" JNull in
    let progress :=
      Progress i n (str repr (dict_get items "start_date_local" (JStr "unknown")))
        (str repr (dict_get items "name" (JStr "Unnamed"))) (str repr activity_id) in
    match get_activity_streams repr json_loads b64encode urlopen athlete_id activity_id
            api_token fs with
    | (Return streams, fs', out) =>
        if truthy streams
        then (Return tt,
              with_stream (stream_file (str repr activity_id)) (json_dump streams) fs',
              progress :: out)
        else (Return tt, fs', progress :: out ++ [No_streams])
    | (Raise e, fs', out) => (Raise e, fs', progress :: out)
    end.
Proof.
  unfold download_streams_of, bind, lift, print. cbn [get].
  destruct (get_activity_streams _ _ _ _ _ _ _ _) as [[[streams|e] fs'] out];
    [|reflexivity].
  destruct (truthy streams); cbn; rewrite ?app_nil_r; reflexivity.
Qed.

Lemma get_activity_streams_loaded (athlete_id : Z) (activity_id : json)
    (api_token body : string) (v : json) (fs : files) :
  urlopen (streams_url repr activity_id) (authorization b64encode api_token)
  = Return body ->
  json_loads body = Loaded v ->
  get_activity_streams repr json_loads b64encode urlopen athlete_id activity_id api_token fs
  = (Return v, fs, []).
Proof.
  intros Hopen Hload. unfold get_activity_streams, try_except.
  rewrite (make_api_request_loaded _ _ _ _ _ Hopen Hload). reflexivity.
Qed.

Lemma get_activity_streams_url_error (athlete_id : Z) (activity_id : json)
    (api_token reason : string) (fs : files) :
  urlopen (streams_url repr activity_id) (authorization b64encode api_token)
  = Raise (URLError reason) ->
  get_activity_streams repr json_loads b64encode urlopen athlete_id activity_id api_token fs
  = (Raise (SystemExit 1), fs, [Url_error reason]).
Proof.
  intros Hopen. unfold get_activity_streams, try_except.
  rewrite (make_api_request_url_error _ _ _ _ Hopen). reflexivity.
Qed.

(** X12. A stream fetch that cannot reach the service ([URLError]) ends
    the loop of [main] with [SystemExit(1)] at that activity: the line
    "URL Error" is printed, no warning, and the activities after it are
    not visited. *)
Theorem stream_fetch_url_error_ends_the_loop
    (athlete_id : Z) (api_token : string) (n i : nat)
    (items : list (string * json)) (rest : list json) (reason : string) (fs : files) :
  urlopen (streams_url repr (dict_get items "id" JNull)) (authorization b64encode api_token)
  = Raise (URLError reason) ->
  download_streams repr json_loads json_dump b64encode urlopen athlete_id api_token n i
    (JDict items :: rest) fs
  = (Raise (SystemExit 1), fs,
     [Progress i n (str repr (dict_get items "start_date_local" (JStr "unknown")))
        (str repr (dict_get items "name" (JStr "Unnamed")))
        (str repr (dict_get items "id" JNull));
      Url_error reason]).
Proof.
  intros Hopen. cbn [download_streams]. unfold bind.
  rewrite download_streams_of_record. cbv zeta.
  rewrite (get_activity_streams_url_error _ _ _ _ _ Hopen). reflexivity.
Qed.


(** X14. A stream fetch that answers an empty value (an empty object or
    list, null, 0) leaves no file: the line "No streams available" is
    printed and the files are as before. *)
Theorem empty_streams_leave_no_file
    (athlete_id : Z) (api_token : string) (n i : nat)
    (items : list (string * json)) (body : string) (v : json) (fs : files) :
  urlopen (streams_url repr (dict_get items "id" JNull)) (authorization b64encode api_token)
  = Return body ->
  json_loads body = Loaded v ->
  truthy v = false ->
  download_streams_of repr json_loads json_dump b64encode urlopen athlete_id api_token
    n i (JDict items) fs
  = (Return tt, fs,
     [Progress i n (str repr (dict_get items "start_date_local" (JStr "unknown")))
        (str repr (dict_get items "name" (JStr "Unnamed")))
        (str repr (dict_get items "id" JNull));
      No_streams]).
Proof.
  intros Hopen Hload Hfalse. rewrite download_streams_of_record. cbv zeta.
  rewrite (get_activity_streams_loaded _ _ _ _ _ _ Hopen Hload), Hfalse. reflexivity.
Qed.

(** X15. A stream fetch whose body is not JSON is the failure the loop
    of [main] survives: it prints the warning with the identifier and the
    error, then "No streams available", writes no file and goes on with the
    next activity. *)
Theorem garbled_stream_body_continues
    (athlete_id : Z) (api_token : string) (n i : nat)
    (items : list (string * json)) (rest : list json) (body msg : string) (fs : files) :
  urlopen (streams_url repr (dict_get items "id" JNull)) (authorization b64encode api_token)
  = Return body ->
  json_loads body = DecodeError msg ->
  download_streams repr json_loads json_dump b64encode urlopen athlete_id api_token n i
    (JDict items :: rest) fs
  = after
      [Progress i n (str repr (dict_get items "start_date_local" (JStr "unknown")))
         (str repr (dict_get items "name" (JStr "Unnamed")))
         (str repr (dict_get items "id" JNull));
       Warning_could_not_fetch (str repr (dict_get items "id" JNull)) (JSONDecodeError msg);
       No_streams]
      (download_streams repr json_loads json_dump b64encode urlopen athlete_id api_token
         n (S i) rest fs).
Proof.
  intros Hopen Hload. cbn [download_streams]. unfold bind.
  rewrite download_streams_of_record. cbv zeta.
  rewrite (get_activity_streams_bad_body _ _ _ _ _ _ _ _ _ _ Hopen Hload).
  cbn [truthy].
  destruct (download_streams _ _ _ _ _ _ _ _ _ _ _) as [[r fs'] out]. reflexivity.
Qed.

(** X16. The loop of [main] does not skip a run that has no identifier:
    [activity.get('id')] is None, the streams of "None" are requested, and
    a non-empty answer is saved as [streams/None.json]. *)
Theorem run_without_id_is_fetched_as_None
    (athlete_id : Z) (api_token : string) (n i : nat)
    (items : list (string * json)) (body : string) (v : json) (fs : files) :
  dict_has items "id" = false ->
  urlopen "https://intervals.icu/api/v1/activity/None/streams"
    (authorization b64encode api_token) = Return body ->
  json_loads body = Loaded v ->
  truthy v = true ->
  download_streams_of repr json_loads json_dump b64encode urlopen athlete_id api_token
    n i (JDict items) fs
  = (Return tt, with_stream "None.json" (json_dump v) fs,
     [Progress i n (str repr (dict_get items "start_date_local" (JStr "unknown")))
        (str repr (dict_get items "name" (JStr "Unnamed"))) "None"]).
Proof.
  intros Hid Hopen Hload Htrue. rewrite download_streams_of_record. cbv zeta.
  rewrite (dict_get_absent _ _ _ Hid).
  rewrite (get_activity_streams_loaded athlete_id JNull api_token body v fs Hopen Hload).
  rewrite Htrue. reflexivity.
Qed.
End ExtractorFurther.

Section ExtractorRuns.
Import DownloadActivities.
Variable repr : json -> string.
Variable json_loads : string -> load_result.
Variable json_dump : json -> string.
Variable b64encode : string -> string.
Variable urlopen : string -> string -> outcome string.

Lemma only_runs_records (activities : list json) :
  Forall (fun a => is_record a = true) activities ->
  only_runs activities = Return (List.filter is_run_activity activities).
Proof.
  induction 1 as [|a rest Ha _ IH]; [reflexivity|].
  destruct a; try discriminate Ha.
  cbn [only_runs get List.filter is_run_activity]. rewrite IH. reflexivity.
Qed.

Lemma only_runs_non_record (activities : list json) :
  Exists (fun a => is_record a = false) activities ->
  only_runs activities = Raise AttributeError.
Proof.
  induction activities as [|a rest IH]; intros Hbad;
    [apply List.Exists_nil in Hbad; contradiction|].
  destruct (is_record a) eqn:Ha.
  - apply List.Exists_cons in Hbad. destruct Hbad as [Hbad|Hbad]; [congruence|].
    destruct a; try discriminate Ha. cbn [only_runs get]. rewrite (IH Hbad). reflexivity.
  - destruct a; try discriminate Ha; reflexivity.
Qed.

(** [get_activities], by the way its request ends. *)
Lemma get_activities_cases (athlete_id : Z) (api_token : string) (year : Z) (fs : files) :
  get_activities json_loads b64encode urlopen athlete_id api_token year fs
  = let fetching :=
      Fetching_activities (pretty year +:+ "-01-01") (pretty year +:+ "-12-31") in
    match make_api_request json_loads b64encode urlopen
            (activities_url athlete_id year) api_token fs with
    | (Return activities, fs', out) =>
        match iter activities with
        | Return elements =>
            match only_runs elements with
            | Return runs => (Return runs, fs', fetching :: out ++ [Found (length runs)])
            | Raise e => (Raise e, fs', fetching :: out)
            end
        | Raise e => (Raise e, fs', fetching :: out)
        end
    | (Raise e, fs', out) => (Raise e, fs', fetching :: out)
    end.
Proof.
  unfold get_activities, activities_url, bind, print, lift. cbv zeta.
  destruct (make_api_request _ _ _ _ _ _) as [[[activities|e] fs'] out]; [|reflexivity].
  destruct (iter activities) as [elements|e]; cbn; rewrite ?app_nil_r; [|reflexivity].
  destruct (only_runs elements) as [runs|e]; cbn; rewrite ?app_nil_r; reflexivity.
Qed.

(** [main] with a token, by the way the list and the streams end. *)
Lemma main_cases (program api_token : string) (fs : files) :
  main repr json_loads json_dump b64encode urlopen [program; api_token] fs
  = match get_activities json_loads b64encode urlopen 0 api_token 2025 fs with
    | (Return activities, fs1, out1) =>
        match download_streams repr json_loads json_dump b64encode urlopen 0 api_token
                (length activities) 1%nat activities
                (with_activities (json_dump (JList activities)) fs1) with
        | (Return _, fs2, out2) =>
            (Return tt, fs2,
             [Banner; Fetching_athlete; Athlete_id 0] ++ out1 ++
             [Saved_activities; Downloading_streams (length activities)] ++ out2 ++
             [Download_complete (length activities)])
        | (Raise e, fs2, out2) =>
            (Raise e, fs2,
             [Banner; Fetching_athlete; Athlete_id 0] ++ out1 ++
             [Saved_activities; Downloading_streams (length activities)] ++ out2)
        end
    | (Raise e, fs1, out1) =>
        (Raise e, fs1, [Banner; Fetching_athlete; Athlete_id 0] ++ out1)
    end.
Proof.
  unfold main, bind, print, save_json, write, with_activities.
  destruct (get_activities _ _ _ _ _ _ _) as [[[activities|e] fs1] out1]; [|reflexivity].
  destruct (download_streams _ _ _ _ _ _ _ _ _ _ _) as [[[[]|e] fs2] out2];
    cbn; rewrite ?app_nil_r; reflexivity.
Qed.

(** X17. An HTTP error on the request of the activities list is fatal:
    [main] prints the status, the reason and the URL (and the hint on the
    token when the status is 401), exits with status 1 and writes no
    file. *)
Theorem list_fetch_http_error_is_fatal
    (program api_token : string) (code : Z) (reason : string) (fs : files) :
  urlopen (activities_url 0 2025) (authorization b64encode api_token)
  = Raise (HTTPError code reason) ->
  main repr json_loads json_dump b64encode urlopen [program; api_token] fs
  = (Raise (SystemExit 1), fs,
     [Banner; Fetching_athlete; Athlete_id 0;
      Fetching_activities "2025-01-01" "2025-12-31";
      Http_error code reason; Url (activities_url 0 2025)] ++
     if code =? 401 then [Authentication_failed] else []).
Proof.
  intros Hopen. rewrite main_cases, get_activities_cases. cbv zeta.
  rewrite (make_api_request_http_error _ _ _ _ _ _ _ _ Hopen). reflexivity.
Qed.

(** X18. A body that is not JSON on the request of the activities list is
    not handled: the [JSONDecodeError] leaves [main], and no file is
    written. *)
Theorem garbled_activity_list_is_not_caught
    (program api_token body msg : string) (fs : files) :
  urlopen (activities_url 0 2025) (authorization b64encode api_token) = Return body ->
  json_loads body = DecodeError msg ->
  main repr json_loads json_dump b64encode urlopen [program; api_token] fs
  = (Raise (JSONDecodeError msg), fs,
     [Banner; Fetching_athlete; Athlete_id 0;
      Fetching_activities "2025-01-01" "2025-12-31"]).
Proof.
  intros Hopen Hload. rewrite main_cases, get_activities_cases. cbv zeta.
  rewrite (make_api_request_bad_body _ _ _ _ _ _ _ _ Hopen Hload). reflexivity.
Qed.

(** X19. On a list of objects [get_activities] returns exactly the
    activities whose type is 'Run', in the order of the answer, prints
    their number and writes no file. *)
Theorem get_activities_keeps_runs_in_order
    (athlete_id : Z) (api_token : string) (year : Z) (body : string)
    (activities : list json) (fs : files) :
  urlopen (activities_url athlete_id year) (authorization b64encode api_token)
  = Return body ->
  json_loads body = Loaded (JList activities) ->
  Forall (fun a => is_record a = true) activities ->
  get_activities json_loads b64encode urlopen athlete_id api_token year fs
  = (Return (List.filter is_run_activity activities), fs,
     [Fetching_activities (pretty year +:+ "-01-01") (pretty year +:+ "-12-31");
      Found (length (List.filter is_run_activity activities))]).
Proof.
  intros Hopen Hload Hrec. rewrite get_activities_cases. cbv zeta.
  rewrite (make_api_request_loaded _ _ _ _ _ _ _ _ Hopen Hload). cbn [iter].
  rewrite (only_runs_records _ Hrec). reflexivity.
Qed.

(** X20. An element of the answered list that is not an object stops
    [main] with [AttributeError] in the filter of [get_activities], before
    the list is saved: no file is written. *)
Theorem non_record_in_list_aborts_download
    (program api_token body : string) (activities : list json) (fs : files) :
  urlopen (activities_url 0 2025) (authorization b64encode api_token) = Return body ->
  json_loads body = Loaded (JList activities) ->
  Exists (fun a => is_record a = false) activities ->
  main repr json_loads json_dump b64encode urlopen [program; api_token] fs
  = (Raise AttributeError, fs,
     [Banner; Fetching_athlete; Athlete_id 0;
      Fetching_activities "2025-01-01" "2025-12-31"]).
Proof.
  intros Hopen Hload Hbad. rewrite main_cases, get_activities_cases. cbv zeta.
  rewrite (make_api_request_loaded _ _ _ _ _ _ _ _ Hopen Hload). cbn [iter].
  rewrite (only_runs_non_record _ Hbad). reflexivity.
Qed.







End ExtractorRuns.

(** * The two scripts together *)

Section Pipeline.
Variable repr : json -> string.
Variable json_load : string -> load_result.
Variable json_dump : json -> string.
Variable b64encode : string -> string.
Variable urlopen : string -> string -> outcome string.

(** X23. What the Extractor saves for a run is what the Merger merges
    for it: both name the stream file by the identifier, so after a fetch
    that answered a non-empty value [v], and with a [json.load] that reads
    back what [json.dump] wrote, the Merger's record of that run has the
    channels of [v], and no warning is printed. *)
Theorem saved_streams_are_merged
    (athlete_id : Z) (api_token : string) (n i : nat)
    (items : list (string * json)) (processed : list json)
    (body : string) (v : json) (fs : files) :
  is_run items = true ->
  has_id items = true ->
  urlopen (DownloadActivities.streams_url repr (dict_get items "id" JNull))
    (DownloadActivities.authorization b64encode api_token) = Return body ->
  json_load body = Loaded v ->
  truthy v = true ->
  json_load (json_dump v) = Loaded v ->
  let fs' :=
    snd (fst (DownloadActivities.download_streams_of repr json_load json_dump b64encode
                urlopen athlete_id api_token n i (JDict items) fs)) in
  ProcessActivities.process_activity repr json_load processed (JDict items) fs'
  = (Return (processed ++ [merged_with (ProcessActivities.extract_channels v) items]),
     fs', []).
Proof.
  intros Htype Hid Hopen Hload Htrue Hback.
  rewrite download_streams_of_record. cbv zeta.
  rewrite (get_activity_streams_loaded _ _ _ _ _ _ _ _ _ _ Hopen Hload), Htrue.
  cbn [fst snd].
  rewrite (process_activity_kept _ _ _ _ _ Htype Hid).
  unfold stream_data_of, stream_warnings, with_stream. cbn [streams].
  rewrite lookup_insert_eq, Hback. reflexivity.
Qed.
End Pipeline.

(** ** The further properties on the sample inputs *)

Lemma missing_activities_file_aborts_witness :
  ProcessActivities.process_activities Samples.repr Samples.json_load Samples.json_dump
    Samples.empty_dir
  = (Raise FileNotFoundError, Samples.empty_dir, [ProcessActivities.Loading_activities]).
Proof.
  apply (missing_activities_file_aborts Samples.repr Samples.json_load Samples.json_dump
           Samples.empty_dir).
  reflexivity.
Defined.

Lemma malformed_activities_file_aborts_witness :
  ProcessActivities.process_activities Samples.repr Samples.json_load Samples.json_dump
    MoreSamples.garbled_dir
  = (Raise (JSONDecodeError "Expecting value: line 1 column 1 (char 0)"),
     MoreSamples.garbled_dir, [ProcessActivities.Loading_activities]).
Proof.
  apply (malformed_activities_file_aborts Samples.repr Samples.json_load Samples.json_dump
           MoreSamples.garbled_dir "<html>Bad Gateway</html>"
           "Expecting value: line 1 column 1 (char 0)");
    reflexivity.
Defined.

Lemma non_record_activity_aborts_without_output_witness :
  ProcessActivities.process_activities Samples.repr MoreSamples.json_load Samples.json_dump
    MoreSamples.mixed_dir
  = (Raise AttributeError, MoreSamples.mixed_dir,
     [ProcessActivities.Loading_activities; ProcessActivities.Found 3]).
Proof.
  apply (non_record_activity_aborts_without_output Samples.repr MoreSamples.json_load
           Samples.json_dump MoreSamples.mixed_dir
           (Samples.dumps (JList MoreSamples.mixed)) [Samples.run1] (JInt 5) [Samples.run2]).
  - reflexivity.
  - vm_compute. reflexivity.
  - repeat constructor.
  - reflexivity.
Defined.

Lemma activities_not_a_list_aborts_witness :
  ProcessActivities.process_activities Samples.repr MoreSamples.json_load Samples.json_dump
    MoreSamples.null_dir
  = (Raise TypeError, MoreSamples.null_dir, [ProcessActivities.Loading_activities]) /\
  ProcessActivities.process_activities Samples.repr MoreSamples.json_load Samples.json_dump
    MoreSamples.wrapped_dir
  = (Raise AttributeError, MoreSamples.wrapped_dir,
     [ProcessActivities.Loading_activities; ProcessActivities.Found 1]).
Proof.
  split.
  - apply (activities_not_a_list_aborts Samples.repr MoreSamples.json_load Samples.json_dump
             MoreSamples.null_dir "null" JNull eq_refl eq_refl).
    reflexivity.
  - apply (proj2 (activities_not_a_list_aborts Samples.repr MoreSamples.json_load
                    Samples.json_dump MoreSamples.wrapped_dir
                    (Samples.dumps MoreSamples.wrapped) MoreSamples.wrapped
                    eq_refl eq_refl)
             ("activities", JList [Samples.run1]) []).
    reflexivity.
Defined.


Lemma other_payload_shape_is_empty_channels_witness :
  ProcessActivities.process_activity Samples.repr MoreSamples.json_load []
    (JDict [("type", JStr "Run"); ("id", JStr "i1")]) MoreSamples.odd_streams
  = (Return [JDict [("id", JStr "i1"); ("datetime", JNull); ("duration", JNull);
                    ("distance", JNull); ("heartrate", JList []);
                    ("velocity_smooth", JList [])]],
     MoreSamples.odd_streams, []).
Proof.
  apply (other_payload_shape_is_empty_channels Samples.repr MoreSamples.json_load
           [("type", JStr "Run"); ("id", JStr "i1")] [] MoreSamples.odd_streams
           "7" (JInt 7));
    try reflexivity.
  right. split; reflexivity.
Defined.

Lemma records_have_six_fields_witness :
  exists output : list json,
    fst (ProcessActivities.process_activities Samples.repr Samples.json_load
           Samples.json_dump Samples.data_dir)
    = (Return tt,
       ProcessActivities.set_output (Samples.json_dump (JList output)) Samples.data_dir) /\
    Forall (fun record =>
              keys record
              = ["id"; "datetime"; "duration"; "distance"; "heartrate"; "velocity_smooth"])
      output /\
    Forall2 (fun activity record =>
               field "id" record = field "id" activity /\
               field "datetime" record = field "start_date_local" activity /\
               field "distance" record = field "distance" activity)
      (List.filter kept Samples.activities) output.
Proof.
  apply (records_have_six_fields Samples.repr Samples.json_load Samples.json_dump
           Samples.data_dir (Samples.dumps (JList Samples.activities)) Samples.activities).
  - reflexivity.
  - vm_compute. reflexivity.
  - repeat constructor.
Defined.


Lemma wrong_argument_count_prints_usage_witness :
  DownloadActivities.main Samples.repr Samples.json_load Samples.json_dump
    Samples.b64encode Samples.urlopen ["download_activities.py"] Samples.empty_dir
  = (Raise (SystemExit 1), Samples.empty_dir, [DownloadActivities.Usage]).
Proof.
  apply (wrong_argument_count_prints_usage Samples.repr Samples.json_load Samples.json_dump
           Samples.b64encode Samples.urlopen ["download_activities.py"] Samples.empty_dir).
  discriminate.
Defined.

Lemma list_fetch_http_error_is_fatal_witness :
  DownloadActivities.main Samples.repr Samples.json_load Samples.json_dump
    Samples.b64encode MoreSamples.urlopen_unauthorized ["download_activities.py"; "token"]
    Samples.empty_dir
  = (Raise (SystemExit 1), Samples.empty_dir,
     [DownloadActivities.Banner; DownloadActivities.Fetching_athlete;
      DownloadActivities.Athlete_id 0;
      DownloadActivities.Fetching_activities "2025-01-01" "2025-12-31";
      DownloadActivities.Http_error 401 "Unauthorized";
      DownloadActivities.Url MoreSamples.list_url;
      DownloadActivities.Authentication_failed]).
Proof.
  apply (list_fetch_http_error_is_fatal Samples.repr Samples.json_load Samples.json_dump
           Samples.b64encode MoreSamples.urlopen_unauthorized
           "download_activities.py" "token" 401 "Unauthorized" Samples.empty_dir).
  reflexivity.
Defined.

Lemma stream_fetch_url_error_ends_the_loop_witness :
  DownloadActivities.download_streams Samples.repr Samples.json_load Samples.json_dump
    Samples.b64encode Samples.urlopen 0 "token" 2 1
    (JDict [("type", JStr "Run"); ("id", JStr "i5")] :: [Samples.run2]) Samples.empty_dir
  = (Raise (SystemExit 1), Samples.empty_dir,
     [DownloadActivities.Progress 1 2 "unknown" "Unnamed" "i5";
      DownloadActivities.Url_error "unreachable"]).
Proof.
  apply (stream_fetch_url_error_ends_the_loop Samples.repr Samples.json_load
           Samples.json_dump Samples.b64encode Samples.urlopen 0 "token" 2%nat 1%nat
           [("type", JStr "Run"); ("id", JStr "i5")] [Samples.run2] "unreachable"
           Samples.empty_dir).
  reflexivity.
Defined.

Lemma garbled_activity_list_is_not_caught_witness :
  DownloadActivities.main Samples.repr Samples.json_load Samples.json_dump
    Samples.b64encode MoreSamples.urlopen_page ["download_activities.py"; "token"]
    Samples.empty_dir
  = (Raise (JSONDecodeError "Expecting value: line 1 column 1 (char 0)"),
     Samples.empty_dir,
     [DownloadActivities.Banner; DownloadActivities.Fetching_athlete;
      DownloadActivities.Athlete_id 0;
      DownloadActivities.Fetching_activities "2025-01-01" "2025-12-31"]).
Proof.
  apply (garbled_activity_list_is_not_caught Samples.repr Samples.json_load
           Samples.json_dump Samples.b64encode MoreSamples.urlopen_page
           "download_activities.py" "token" "<html>Bad Gateway</html>"
           "Expecting value: line 1 column 1 (char 0)" Samples.empty_dir);
    reflexivity.
Defined.

Lemma get_activities_keeps_runs_in_order_witness :
  DownloadActivities.get_activities Samples.json_load Samples.b64encode
    MoreSamples.urlopen_all 0 "token" 2025 Samples.empty_dir
  = (Return [Samples.run1; Samples.run_zero; Samples.run2; Samples.run3;
             Samples.run_empty; Samples.run4],
     Samples.empty_dir,
     [DownloadActivities.Fetching_activities "2025-01-01" "2025-12-31";
      DownloadActivities.Found 6]).
Proof.
  apply (get_activities_keeps_runs_in_order Samples.json_load Samples.b64encode
           MoreSamples.urlopen_all 0 "token" 2025
           (Samples.dumps (JList Samples.activities)) Samples.activities Samples.empty_dir).
  - reflexivity.
  - vm_compute. reflexivity.
  - repeat constructor.
Defined.

Lemma non_record_in_list_aborts_download_witness :
  DownloadActivities.main Samples.repr MoreSamples.json_load Samples.json_dump
    Samples.b64encode MoreSamples.urlopen_mixed ["download_activities.py"; "token"]
    Samples.empty_dir
  = (Raise AttributeError, Samples.empty_dir,
     [DownloadActivities.Banner; DownloadActivities.Fetching_athlete;
      DownloadActivities.Athlete_id 0;
      DownloadActivities.Fetching_activities "2025-01-01" "2025-12-31"]).
Proof.
  apply (non_record_in_list_aborts_download Samples.repr MoreSamples.json_load
           Samples.json_dump Samples.b64encode MoreSamples.urlopen_mixed
           "download_activities.py" "token" (Samples.dumps (JList MoreSamples.mixed))
           MoreSamples.mixed Samples.empty_dir).
  - reflexivity.
  - vm_compute. reflexivity.
  - right. left. reflexivity.
Defined.


Lemma empty_streams_leave_no_file_witness :
  DownloadActivities.download_streams_of Samples.repr MoreSamples.json_load
    Samples.json_dump Samples.b64encode MoreSamples.urlopen_empty 0 "token" 2 1
    (JDict [("type", JStr "Run"); ("id", JStr "i1")]) Samples.empty_dir
  = (Return tt, Samples.empty_dir,
     [DownloadActivities.Progress 1 2 "unknown" "Unnamed" "i1";
      DownloadActivities.No_streams]).
Proof.
  apply (empty_streams_leave_no_file Samples.repr MoreSamples.json_load Samples.json_dump
           Samples.b64encode MoreSamples.urlopen_empty 0 "token" 2%nat 1%nat
           [("type", JStr "Run"); ("id", JStr "i1")] "{}" (JDict []) Samples.empty_dir);
    reflexivity.
Defined.

Lemma garbled_stream_body_continues_witness :
  DownloadActivities.download_streams Samples.repr Samples.json_load Samples.json_dump
    Samples.b64encode Samples.urlopen_garbled 0 "token" 2 1
    (JDict [("type", JStr "Run"); ("id", JStr "i1")] :: [Samples.run2]) Samples.empty_dir
  = after
      [DownloadActivities.Progress 1 2 "unknown" "Unnamed" "i1";
       DownloadActivities.Warning_could_not_fetch "i1"
         (JSONDecodeError "Expecting value: line 1 column 1 (char 0)");
       DownloadActivities.No_streams]
      (DownloadActivities.download_streams Samples.repr Samples.json_load
         Samples.json_dump Samples.b64encode Samples.urlopen_garbled 0 "token" 2 2
         [Samples.run2] Samples.empty_dir).
Proof.
  apply (garbled_stream_body_continues Samples.repr Samples.json_load Samples.json_dump
           Samples.b64encode Samples.urlopen_garbled 0 "token" 2%nat 1%nat
           [("type", JStr "Run"); ("id", JStr "i1")] [Samples.run2]
           "<html>Bad Gateway</html>" "Expecting value: line 1 column 1 (char 0)"
           Samples.empty_dir);
    reflexivity.
Defined.

Lemma download_streams_http_error_witness :
  DownloadActivities.download_streams Samples.repr Samples.json_load Samples.json_dump
    Samples.b64encode Samples.urlopen 0 "token" 2 1
    (JDict [("type", JStr "Run"); ("id", JStr "i1")] :: [Samples.run2]) Samples.empty_dir
  = (Raise (SystemExit 1), Samples.empty_dir,
     [DownloadActivities.Progress 1 2 "unknown" "Unnamed" "i1";
      DownloadActivities.Http_error 404 "Not Found";
      DownloadActivities.Url "https://intervals.icu/api/v1/activity/i1/streams"]).
Proof.
  apply (download_streams_http_error Samples.repr Samples.json_load Samples.json_dump
           Samples.b64encode Samples.urlopen 0 "token" 2%nat 1%nat
           [("type", JStr "Run"); ("id", JStr "i1")] [Samples.run2] 404 "Not Found"
           Samples.empty_dir).
  reflexivity.
Defined.

Lemma run_without_id_is_fetched_as_None_witness :
  DownloadActivities.download_streams_of Samples.repr Samples.json_load Samples.json_dump
    Samples.b64encode MoreSamples.urlopen_anonymous 0 "token" 1 1 MoreSamples.anonymous
    Samples.empty_dir
  = (Return tt,
     with_stream "None.json" (Samples.dumps Samples.stream_mapping) Samples.empty_dir,
     [DownloadActivities.Progress 1 1 "unknown" "Morning Run" "None"]).
Proof.
  apply (run_without_id_is_fetched_as_None Samples.repr Samples.json_load Samples.json_dump
           Samples.b64encode MoreSamples.urlopen_anonymous 0 "token" 1%nat 1%nat
           [("type", JStr "Run"); ("name", JStr "Morning Run")]
           (Samples.dumps Samples.stream_mapping) Samples.stream_mapping
           Samples.empty_dir);
    reflexivity.
Defined.


Lemma saved_streams_are_merged_witness :
  ProcessActivities.process_activity Samples.repr Samples.json_load [] Samples.run2
    (with_stream "i2.json" (Samples.dumps Samples.stream_mapping) Samples.empty_dir)
  = (Return [JDict [("id", JStr "i2"); ("datetime", JNull); ("duration", JInt 1800);
                    ("distance", JNull);
                    ("heartrate", JList [JInt 1; JInt 2; JInt 3]);
                    ("velocity_smooth", JList [JInt 4; JInt 5])]],
     with_stream "i2.json" (Samples.dumps Samples.stream_mapping) Samples.empty_dir, []).
Proof.
  apply (saved_streams_are_merged Samples.repr Samples.json_load Samples.json_dump
           Samples.b64encode Samples.urlopen 0 "token" 2%nat 2%nat
           [("type", JStr "Run"); ("id", JStr "i2"); ("elapsed_time", JInt 1800)] []
           (Samples.dumps Samples.stream_mapping) Samples.stream_mapping
           Samples.empty_dir);
    reflexivity.
Defined.
